(** * Proactive task manager: task-state mutation engine, WAL and health scan

    Shallow embedding of [scripts/task_manager_phase1.py] and
    [scripts/task_manager_phase2.py].

    Modelling conventions:
    - A JSON value of the store is [value]; JSON numbers are integers here
      (the fields the core compares, progress and minutes, are integers as
      the code writes them; [time_variance_percent] is not modelled).
    - A task is a Python dict: [gmap string value]. The store is the loaded
      [data] object, with its "goals" and "tasks" lists.
    - Every operation runs in [M]: it appends the effects it performs
      (store saves, WAL appends, prints, ...) to a trace and either returns
      or raises a Python exception ([exc]); [sys.exit(1)] is
      [SystemExit 1].
    - A point in time is a count of microseconds since the epoch (UTC).
      The task commands read one instant [now] for their
      [datetime.now(timezone.utc)] calls; the health check's loop reads a
      [clock], one instant per [datetime.now()] call of each iteration, and
      its WAL entry and timestamp read [now].
    - [generate_id("task")] is an opaque provider of ids: the id it returns
      is an argument of the operation. *)

From Stdlib Require Import ZArith String List Lia.
From Corelib Require Import PrimFloat FloatOps SpecFloat.
From stdpp Require Import base gmap strings list.

Import ListNotations.
#[local] Set Warnings "-register-all".
Open Scope string_scope.
Open Scope Z_scope.

(* ------------------------------------------------------------------ *)
(** ** Python values *)

Inductive value : Type :=
  | VNull
  | VBool (b : bool)
  | VInt (z : Z)
  | VStr (s : string)
  | VList (l : list value)
  | VDict (kvs : list (string * value)).

Abbreviation task := (gmap string value).

Record store : Type := mkStore { goals : list task; tasks : list task }.

(** Python truthiness. *)
Definition truthy (v : value) : bool :=
  match v with
  | VNull => false
  | VBool b => b
  | VInt z => negb (z =? 0)
  | VStr s => negb (String.eqb s "")
  | VList l => negb (Nat.eqb (length l) 0)
  | VDict kvs => negb (Nat.eqb (length kvs) 0)
  end.

(** [v == "s"] for a string literal ["s"]. *)
Definition is_str (v : value) (s : string) : bool :=
  match v with VStr s' => String.eqb s' s | _ => false end.

(** [d.get(k, default)]. *)
Definition get_default (t : task) (k : string) (d : value) : value :=
  match t !! k with Some v => v | None => d end.

(** Numbers as Python sees them ([bool] is a subclass of [int]). *)
Definition as_number (v : value) : option Z :=
  match v with
  | VInt z => Some z
  | VBool b => Some (if b then 1 else 0)
  | _ => None
  end.

(* ------------------------------------------------------------------ *)
(** ** Exceptions, effects and the operation monad *)

Inductive exc : Type :=
  | KeyError (k : string)
  | TypeError
  | ZeroDivisionError
  | JSONDecodeError
  | IOError
  | AttributeError
  | SystemExit (code : Z).

Record wal_entry : Type := mkWal {
  wal_timestamp : string;
  wal_event_type : string;
  wal_content : list (string * value) }.

Inductive effect : Type :=
  | EWarn (msg : string)                    (* warning on stderr *)
  | EBackup                                 (* copy tasks.json to tasks.json.bak *)
  | EStderr (msg : string)                  (* {"success": false, "error": msg} *)
  | EStdout (out : list (string * value))   (* the JSON result object *)
  | ESave (data : store)                    (* save_data(data) *)
  | EWal (file : string) (entry : wal_entry)(* one line appended to a WAL file *)
  | ESession (t : task)                     (* SESSION-STATE.md rewritten *)
  | EBuffer (event_type details : string).  (* one working-buffer line *)

Inductive outcome (A : Type) : Type :=
  | Done (a : A)
  | Raised (e : exc).
Arguments Done {A} a.
Arguments Raised {A} e.

Definition M (A : Type) : Type := list effect -> list effect * outcome A.

Definition ret {A} (a : A) : M A := fun tr => (tr, Done a).
Definition bind {A B} (m : M A) (f : A -> M B) : M B :=
  fun tr => match m tr with
            | (tr', Done a) => f a tr'
            | (tr', Raised e) => (tr', Raised e)
            end.
Definition raise {A} (e : exc) : M A := fun tr => (tr, Raised e).
Definition emit (e : effect) : M unit := fun tr => (app tr [e], Done tt).
Definition lift {A} (o : outcome A) : M A :=
  match o with Done a => ret a | Raised e => raise e end.
Definition run {A} (m : M A) : list effect * outcome A := m [].

(** stdpp's monad notations [x ← m; k] and [m ;; k] for [M], and
    [let* x := m in k], which elaborates [m] before [k]. *)
Global Instance M_ret : MRet M := fun A a => ret a.
Global Instance M_bind : MBind M := fun A B f m => bind m f.
Notation "'let*' x ':=' m 'in' k" := (bind m (fun x => k))
  (at level 200, x binder, m at level 100, k at level 200).

(** [d[k]]. *)
Definition get_item (t : task) (k : string) : outcome value :=
  match t !! k with Some v => Done v | None => Raised (KeyError k) end.

(** [a < b], for the value types the core compares. Comparisons of lists,
    dicts or [None] raise TypeError (Python orders two lists
    lexicographically; no field the core compares holds a list). *)
Definition py_lt (a b : value) : outcome bool :=
  match as_number a, as_number b with
  | Some x, Some y => Done (x <? y)
  | _, _ =>
      match a, b with
      | VStr s, VStr s' => Done (match String.compare s s' with Lt => true | _ => false end)
      | _, _ => Raised TypeError
      end
  end.

(** [a > b]. *)
Definition py_gt (a b : value) : outcome bool := py_lt b a.

Fixpoint repeat_str (s : string) (n : nat) : string :=
  match n with O => "" | S n' => s ++ repeat_str s n' end.

(** [v * 10]. *)
Definition py_mul10 (v : value) : outcome value :=
  match v with
  | VInt z => Done (VInt (z * 10))
  | VBool b => Done (VInt (if b then 10 else 0))
  | VStr s => Done (VStr (repeat_str s 10))
  | VList l => Done (VList (concat (repeat l 10)))
  | _ => Raised TypeError
  end.

(** The checks [a / b] performs before dividing. *)
Definition py_truediv_check (a b : value) : outcome unit :=
  match as_number a, as_number b with
  | Some _, Some 0 => Raised ZeroDivisionError
  | Some _, Some _ => Done tt
  | _, _ => Raised TypeError
  end.

(* ------------------------------------------------------------------ *)
(** ** The clock: [datetime.isoformat()] of an aware UTC datetime *)

Definition digit (d : Z) : Ascii.ascii := Ascii.ascii_of_nat (48 + Z.to_nat d).

(** [w] decimal digits of [n], zero padded. *)
Fixpoint pad (w : nat) (n : Z) : string :=
  match w with
  | O => ""
  | S w' => pad w' (n / 10) ++ String (digit (n mod 10)) ""
  end.

(** Proleptic Gregorian (year, month, day) of a day count since 1970-01-01. *)
Definition civil_from_days (days : Z) : Z * Z * Z :=
  let z := days + 719468 in
  let era := z / 146097 in
  let doe := z - era * 146097 in
  let yoe := (doe - doe / 1460 + doe / 36524 - doe / 146096) / 365 in
  let doy := doe - (365 * yoe + yoe / 4 - yoe / 100) in
  let mp := (5 * doy + 2) / 153 in
  let d := doy - (153 * mp + 2) / 5 + 1 in
  let m := if mp <? 10 then mp + 3 else mp - 9 in
  let y := yoe + era * 400 + (if m <=? 2 then 1 else 0) in
  (y, m, d).

Definition usec_per_day : Z := 86400000000.

Definition date_part (t : Z) : string :=
  let '(y, m, d) := civil_from_days (t / usec_per_day) in
  pad 4 y ++ "-" ++ pad 2 m ++ "-" ++ pad 2 d.

(** [datetime.now(timezone.utc).isoformat()] at instant [t]: the
    microseconds are printed only when they are not zero. *)
Definition iso (t : Z) : string :=
  let r := t mod usec_per_day in
  let secs := r / 1000000 in
  let us := r mod 1000000 in
  date_part t ++ "T" ++ pad 2 (secs / 3600) ++ ":" ++ pad 2 ((secs / 60) mod 60)
    ++ ":" ++ pad 2 (secs mod 60)
    ++ (if us =? 0 then "" else "." ++ pad 6 us) ++ "+00:00".

(** [datetime.now(timezone.utc).isoformat() + "Z"], the code's stamp. *)
Definition stamp (t : Z) : value := VStr (iso t ++ "Z").

(** [strftime("%Y-%m-%d")]. *)
Definition today (t : Z) : string := date_part t.

Example iso_example : iso 1760443200000000 = "2025-10-14T12:00:00+00:00".
Proof. vm_compute. reflexivity. Qed.

Example iso_example_us : iso 1760443200000123 = "2025-10-14T12:00:00.000123+00:00".
Proof. vm_compute. reflexivity. Qed.

(** [outcome] is Python's exception monad; [M] raises through it. *)
Global Instance outcome_ret : MRet outcome := fun A a => Done a.
Global Instance outcome_bind : MBind outcome := fun A B f o =>
  match o with Done a => f a | Raised e => Raised e end.
Definition obind {A B} (o : outcome A) (f : A -> outcome B) : outcome B := o ≫= f.
Notation "'let?' x ':=' o 'in' k" := (obind o (fun x => k))
  (at level 200, x binder, o at level 100, k at level 200).

(* ------------------------------------------------------------------ *)
(** ** Store Accessor *)

(** What [tasks.json] holds when [load_data] reads it. *)
Inductive blob : Type :=
  | BAbsent                 (* DATA_FILE does not exist *)
  | BUnparseable            (* json.load raises JSONDecodeError *)
  | BUnreadable             (* open/read raises IOError *)
  | BParsed (v : value).    (* json.load returns v *)

Definition empty_data : value := VDict [("goals", VList []); ("tasks", VList [])].

(** [isinstance(data, dict) and "tasks" in data]. *)
Definition has_tasks_key (v : value) : bool :=
  match v with
  | VDict kvs => existsb (fun kv => String.eqb (fst kv) "tasks") kvs
  | _ => false
  end.

(** [load_data] of task_manager_phase1.py. *)
Definition load_data1 (b : blob) : M value :=
  match b with
  | BAbsent => mret empty_data
  | BParsed v =>
      if has_tasks_key v then mret v
      else emit (EWarn "tasks.json schema invalid, recovering to empty state") ;; mret empty_data
  | BUnparseable =>
      emit (EWarn "tasks.json corrupted. Using empty state. Backup at tasks.json.bak") ;;
      emit EBackup ;; mret empty_data
  | BUnreadable => emit (EWarn "Error reading tasks.json") ;; mret empty_data
  end.

(** [load_data] of task_manager_phase2.py. *)
Definition load_data2 (b : blob) : M value :=
  match b with
  | BAbsent => mret empty_data
  | BParsed v => mret v
  | BUnparseable => raise JSONDecodeError
  | BUnreadable => raise IOError
  end.

Definition save_data (data : store) : M unit := emit (ESave data).

(** The structured error object on stderr followed by [sys.exit(1)]. *)
Definition fail_exit {A} (msg : string) : M A :=
  emit (EStderr msg) ;; raise (SystemExit 1).

(** [find_task_by_id]: the first task whose ["id"] equals [task_id], with
    its index in [data["tasks"]]; [task["id"]] raises KeyError on a task
    without an id met before the match. *)
Fixpoint find_task_from (i : nat) (ts : list task) (task_id : string)
    : outcome (option (nat * task)) :=
  match ts with
  | [] => Done None
  | t :: ts' =>
      v ← get_item t "id";
      if is_str v task_id then Done (Some (i, t)) else find_task_from (S i) ts' task_id
  end.

Definition find_task_by_id (data : store) (task_id : string) : outcome (option (nat * task)) :=
  find_task_from 0 (tasks data) task_id.

(** The task found is the same dict object as [data["tasks"][i]]: writing
    it back at [i] is the in-place mutation. *)
Definition set_task (data : store) (i : nat) (t : task) : store :=
  mkStore (goals data) (<[i := t]> (tasks data)).

Definition task_json (t : task) : value := VDict (map_to_list t).

(* ------------------------------------------------------------------ *)
(** ** Task Mutation Engine, task_manager_phase1.py *)

(** [task["status"] == s]. *)
Definition status_is (t : task) (s : string) : M bool :=
  let* st := lift (get_item t "status") in mret (is_str st s).

(** [mark_progress] (phase 1); [progress] is [int(args.progress)]. *)
Definition mark_progress1 (now : Z) (data : store) (task_id : string) (progress : Z) : M unit :=
  let* found := lift (find_task_by_id data task_id) in
  match found with
  | None => fail_exit ("Task not found: " ++ task_id)
  | Some (i, task) =>
      if negb ((0 <=? progress) && (progress <=? 100)) then fail_exit "Progress must be 0-100"
      else
        let task1 := <["updated_at" := stamp now]> (<["progress" := VInt progress]> task) in
        let* c1 := (if progress =? 100 then status_is task1 "in_progress" else mret false) in
        let* task2 := (if c1 then mret (<["completed_at" := stamp now]> (<["status" := VStr "completed"]> task1))
                 else let* c2 := (if 0 <? progress then status_is task1 "pending" else mret false) in
                      mret (if c2 then <["status" := VStr "in_progress"]> task1 else task1)) in
        save_data (set_task data i task2) ;;
        emit (EStdout [("success", VBool true); ("task", task_json task2)])
  end.

(** [mark_blocked] (phase 1). *)
Definition mark_blocked1 (now : Z) (data : store) (task_id reason : string) : M unit :=
  let* found := lift (find_task_by_id data task_id) in
  match found with
  | None => fail_exit ("Task not found: " ++ task_id)
  | Some (i, task) =>
      let task1 := <["updated_at" := stamp now]>
                     (<["blocked_reason" := VStr reason]> (<["status" := VStr "blocked"]> task)) in
      save_data (set_task data i task1) ;;
      emit (EStdout [("success", VBool true); ("task", task_json task1)])
  end.

(** The interval the successor's [next_due_at] is moved by. *)
Definition recurrence_delta (r : value) : Z :=
  if is_str r "daily" then usec_per_day
  else if is_str r "weekly" then 7 * usec_per_day
  else if is_str r "monthly" then 30 * usec_per_day
  else 0.

(** [next_recurring] (phase 1); [new_id] is [generate_id("task")]. *)
Definition next_recurring (now : Z) (data : store) (task_id new_id : string) : M unit :=
  let* found := lift (find_task_by_id data task_id) in
  match found with
  | None => fail_exit ("Task not found: " ++ task_id)
  | Some (i, task) =>
      if is_str (get_default task "recurring" VNull) "none"
         || negb (bool_decide (is_Some (task !! "recurring")))
      then fail_exit "Task is not recurring"
      else
        let* lt := lift (py_lt (get_default task "progress" (VInt 0)) (VInt 100)) in
        if lt then fail_exit "Task must be 100% complete before creating next occurrence"
        else
          let task1 := <["progress" := VInt 100]>
                         (<["completed_at" := stamp now]> (<["status" := VStr "completed"]> task)) in
          let next1 := <["actual_minutes" := VInt 0]> (<["created_at" := stamp now]>
                         (<["progress" := VInt 0]> (<["status" := VStr "pending"]>
                         (<["id" := VStr new_id]> task1)))) in
          let* r := lift (get_item task1 "recurring") in
          let next2 := <["next_due_at" := stamp (now + recurrence_delta r)]> next1 in
          let next3 := fold_left (fun t k => delete k t)
                         ["completed_at"; "last_error"; "retry_count"; "blocked_reason"] next2 in
          save_data (mkStore (goals data) (app (<[i := task1]> (tasks data)) [next3])) ;;
          emit (EStdout [("success", VBool true); ("completed", task_json task1);
                         ("next", task_json next3)])
  end.

(* ------------------------------------------------------------------ *)
(** ** Phase 2: WAL, session state, working buffer *)

(** [a == b] on values ([True == 1]; dicts compared key by key). *)
Fixpoint py_eq (a b : value) : bool :=
  match a, b with
  | VNull, VNull => true
  | VStr s, VStr s' => String.eqb s s'
  | VList l, VList l' =>
      (fix go (l l' : list value) : bool :=
         match l, l' with
         | [], [] => true
         | x :: xs, y :: ys => py_eq x y && go xs ys
         | _, _ => false
         end) l l'
  | VDict kv, VDict kv' =>
      Nat.eqb (length kv) (length kv') &&
      (fix go (kv : list (string * value)) : bool :=
         match kv with
         | [] => true
         | (k, x) :: rest =>
             match snd <$> list_find (fun kv2 => fst kv2 = k) kv' with
             | Some (_, y) => py_eq x y && go rest
             | None => false
             end
         end) kv
  | _, _ =>
      match as_number a, as_number b with
      | Some x, Some y => x =? y
      | _, _ => false
      end
  end.

(** [find_goal_by_id(data, goal_id)]. *)
Fixpoint find_goal_from (gs : list task) (goal_id : value) : outcome (option task) :=
  match gs with
  | [] => Done None
  | g :: gs' =>
      v ← get_item g "id";
      if py_eq v goal_id then Done (Some g) else find_goal_from gs' goal_id
  end.

Definition find_goal_by_id (data : store) (goal_id : value) : outcome (option task) :=
  find_goal_from (goals data) goal_id.

(** [log_to_wal(event_type, content)]: one JSON line appended to
    [memory/WAL-<today>.log]; the file is closed (flushed) on return. *)
Definition log_to_wal (now : Z) (event_type : string) (content : list (string * value)) : M unit :=
  emit (EWal ("WAL-" ++ today now ++ ".log") (mkWal (iso now) event_type content)).

(** [append_to_buffer(event_type, details)]; the details text is
    abbreviated to the task id. *)
Definition append_to_buffer (event_type details : string) : M unit :=
  emit (EBuffer event_type details).

(** [update_session_state(task, goal, action)]: the comparison
    [estimate > 0] and the division [actual / estimate] it makes before
    rewriting SESSION-STATE.md. *)
Definition update_session_state (t : task) : M unit :=
  let estimate := get_default t "estimate_minutes" (VInt 0) in
  let actual := get_default t "actual_minutes" (VInt 0) in
  let* pos := lift (py_gt estimate (VInt 0)) in
  (if pos then lift (py_truediv_check actual estimate) else mret tt) ;;
  emit (ESession t).

Definition newline : string := String (Ascii.ascii_of_nat 10) "".

(** [list(s)]: the one-character strings of [s]. *)
Fixpoint str_chars (s : string) : list value :=
  match s with
  | EmptyString => []
  | String c s' => VStr (String c "") :: str_chars s'
  end.

(** [if notes: task["notes"] += "\n" + notes] or [task["notes"] = notes].
    On a list, [+=] extends it with the characters of the string; on any
    other non-string value it raises. *)
Definition add_notes (t : task) (notes : string) : M task :=
  if String.eqb notes "" then mret t
  else if truthy (get_default t "notes" VNull) then
    match t !! "notes" with
    | Some (VStr s) => mret (<["notes" := VStr (s ++ newline ++ notes)]> t)
    | Some (VList l) => mret (<["notes" := VList (app l (str_chars (newline ++ notes)))]> t)
    | _ => raise TypeError
    end
  else mret (<["notes" := VStr notes]> t).

(** The notes [add_notes] can add: none, or a task whose [notes] is falsy,
    a string or a list; on any other value [+=] raises TypeError. *)
Definition notes_addable (t : task) (notes : string) : Prop :=
  notes = "" \/ truthy (get_default t "notes" VNull) = false
  \/ (exists s, t !! "notes" = Some (VStr s)) \/ (exists l, t !! "notes" = Some (VList l)).

(** [a + b]. *)
Definition py_add (a b : value) : outcome value :=
  match as_number a, as_number b with
  | Some x, Some y => Done (VInt (x + y))
  | _, _ =>
      match a, b with
      | VStr s, VStr s' => Done (VStr (s ++ s'))
      | VList l, VList l' => Done (VList (app l l'))
      | _, _ => Raised TypeError
      end
  end.

(** What every phase-2 mutation does after [save_data]: the session
    snapshot (when the task's goal resolves) and the buffer line. *)
Definition after_save (data : store) (t : task) (event_type task_id : string) : M unit :=
  let* goal := lift (find_goal_by_id data (get_default t "goal_id" (VStr ""))) in
  (match goal with Some _ => update_session_state t | None => mret tt end) ;;
  append_to_buffer event_type task_id.

(** [mark_progress] (phase 2). *)
Definition mark_progress2 (now : Z) (data : store) (task_id : string) (progress : Z) (notes : string)
    : M unit :=
  let* found := lift (find_task_by_id data task_id) in
  match found with
  | None => fail_exit ("Task not found: " ++ task_id)
  | Some (i, task) =>
      let old_progress := get_default task "progress" (VInt 0) in
      log_to_wal now "PROGRESS_CHANGE"
        [("task_id", VStr task_id); ("old_progress", old_progress);
         ("new_progress", VInt progress); ("timestamp", VStr (iso now))] ;;
      let task1 := <["updated_at" := stamp now]> (<["progress" := VInt progress]> task) in
      let* task2 := add_notes task1 notes in
      let status := get_default task2 "status" VNull in
      let task3 :=
        if (100 <=? progress) && negb (is_str status "completed") then
          <["status" := VStr "in_progress"]> task2
        else if (0 <? progress) && is_str status "pending" then
          <["status" := VStr "in_progress"]> task2
        else task2 in
      let data' := set_task data i task3 in
      save_data data' ;;
      after_save data' task3 "PROGRESS" task_id ;;
      emit (EStdout [("success", VBool true); ("task", task_json task3)])
  end.

(** [log_time] (phase 2). *)
Definition log_time2 (now : Z) (data : store) (task_id : string) (minutes : Z) (notes : string)
    : M unit :=
  let* found := lift (find_task_by_id data task_id) in
  match found with
  | None => fail_exit ("Task not found: " ++ task_id)
  | Some (i, task) =>
      let old_actual := get_default task "actual_minutes" (VInt 0) in
      let* new_actual := lift (py_add old_actual (VInt minutes)) in
      log_to_wal now "TIME_LOG"
        [("task_id", VStr task_id); ("minutes_logged", VInt minutes); ("old_total", old_actual);
         ("new_total", new_actual); ("timestamp", VStr (iso now))] ;;
      let task1 := <["updated_at" := stamp now]> (<["actual_minutes" := new_actual]> task) in
      let* task2 := add_notes task1 notes in
      let* started := (if is_str (get_default task2 "status" VNull) "pending"
                       then lift (py_gt new_actual (VInt 0)) else mret false) in
      let task3 := if started then <["status" := VStr "in_progress"]> task2 else task2 in
      let data' := set_task data i task3 in
      save_data data' ;;
      after_save data' task3 "TIME_LOG" task_id ;;
      let estimate := get_default task3 "estimate_minutes" (VInt 0) in
      let* pos := lift (py_gt estimate (VInt 0)) in
      (if pos then lift (py_truediv_check new_actual estimate) else mret tt) ;;
      emit (EStdout [("success", VBool true); ("task", task_json task3);
                     ("time_logged", VInt minutes); ("total_actual", new_actual);
                     ("estimate", estimate)])
  end.

(** [mark_blocked] (phase 2). *)
Definition mark_blocked2 (now : Z) (data : store) (task_id reason : string) : M unit :=
  let* found := lift (find_task_by_id data task_id) in
  match found with
  | None => fail_exit ("Task not found: " ++ task_id)
  | Some (i, task) =>
      let old_status := get_default task "status" (VStr "pending") in
      log_to_wal now "STATUS_CHANGE"
        [("task_id", VStr task_id); ("old_status", old_status); ("new_status", VStr "blocked");
         ("reason", VStr reason); ("timestamp", VStr (iso now))] ;;
      let task1 := <["updated_at" := stamp now]>
                     (<["blocked_reason" := VStr reason]> (<["status" := VStr "blocked"]> task)) in
      let data' := set_task data i task1 in
      save_data data' ;;
      after_save data' task1 "BLOCKED" task_id ;;
      emit (EStdout [("success", VBool true); ("task", task_json task1);
                     ("reason", VStr reason)])
  end.

(* ------------------------------------------------------------------ *)
(** ** Health/Repair Scanner, [health_check] (phase 2) *)

(** The diagnostic strings of [issues], by check, with the task id. *)
Inductive issue : Type :=
  | IOrphanedRecurring (id : value)
  | IImpossibleProgress (id : value)
  | IInconsistentCompletion (id : value)
  | ITimeAnomaly (id : value)
  | IBadDate (id : value).

(** The strings of [fixes], by check, with the task id. *)
Inductive fix_applied : Type :=
  | FRemovedRecurring (id : value)
  | FSetProgress100 (id : value)
  | FAddedCompletedAt (id : value)
  | FResetCompletedAt (id : value).

(** The instants the [datetime.now()] calls of one loop iteration read:
    check 3's new [completed_at], check 5's comparison and check 5's reset.
    Each call reads its own instant; a call the iteration does not make
    reads nothing. *)
Record tick_times : Type := mkTicks { at_added : Z; at_compare : Z; at_reset : Z }.

(** The clock of one pass: [clk n] holds the instants of iteration [n]. *)
Definition clock : Type := nat -> tick_times.

(** A clock starting at [t] that advances one microsecond per call. *)
Definition ticking_clock (t : Z) : clock :=
  fun n => let b := t + 3 * Z.of_nat n in mkTicks b (b + 1) (b + 2).

(** Each instant [k] reads, printed as a stamp ([isoformat() + "Z"]), sorts
    no later than [isoformat()] at [m]: the clock has advanced from the
    instants of [k] to [m]. *)
Definition before_compare (k : tick_times) (m : Z) : Prop :=
  String.compare (iso (at_added k) ++ "Z") (iso m) <> Gt
  /\ String.compare (iso (at_compare k) ++ "Z") (iso m) <> Gt
  /\ String.compare (iso (at_reset k) ++ "Z") (iso m) <> Gt.

(** The five checks of the loop body on one task, in order, with [k] the
    instants of this iteration's [datetime.now()] calls. *)
Definition check_task (k : tick_times) (t0 : task) : outcome (task * list issue * list fix_applied) :=
  let tid := get_default t0 "id" (VStr "unknown") in
  (* Check 1: orphaned recurring *)
  let c1 := truthy (get_default t0 "recurring" VNull) && negb (truthy (get_default t0 "goal_id" VNull)) in
  let t1 := if c1 then <["recurring" := VNull]> t0 else t0 in
  (* Check 2: completed but progress < 100 *)
  let? c2 := (if is_str (get_default t1 "status" VNull) "completed"
              then py_lt (get_default t1 "progress" (VInt 100)) (VInt 100) else Done false) in
  let t2 := if c2 then <["progress" := VInt 100]> t1 else t1 in
  (* Check 3: completed but no completed_at *)
  let c3 := is_str (get_default t2 "status" VNull) "completed"
            && negb (truthy (get_default t2 "completed_at" VNull)) in
  let t3 := if c3 then <["completed_at" := stamp (at_added k)]> t2 else t2 in
  (* Check 4: time anomaly, reported only *)
  let actual := get_default t3 "actual_minutes" (VInt 0) in
  let estimate := get_default t3 "estimate_minutes" (VInt 1) in
  let? bound := py_mul10 estimate in
  let? c4 := py_gt actual bound in
  let? _ := (if c4 then py_truediv_check actual estimate else Done tt) in
  (* Check 5: completed_at in the future *)
  let? c5 := (if is_str (get_default t3 "status" VNull) "completed"
              then py_gt (get_default t3 "completed_at" (VStr "")) (VStr (iso (at_compare k))) else Done false) in
  let t5 := if c5 then <["completed_at" := stamp (at_reset k)]> t3 else t3 in
  Done (t5,
        ((if c1 then [IOrphanedRecurring tid] else []) ++ (if c2 then [IImpossibleProgress tid] else [])
        ++ (if c3 then [IInconsistentCompletion tid] else []) ++ (if c4 then [ITimeAnomaly tid] else [])
        ++ (if c5 then [IBadDate tid] else []))%list,
        ((if c1 then [FRemovedRecurring tid] else []) ++ (if c2 then [FSetProgress100 tid] else [])
        ++ (if c3 then [FAddedCompletedAt tid] else []) ++ (if c5 then [FResetCompletedAt tid] else []))%list).

(** [for task in data["tasks"]: ...], mutating each task in place; the
    first task reads the instants [clk 0], the rest the clock shifted. *)
Fixpoint health_loop (clk : clock) (ts : list task) : outcome (list task * list issue * list fix_applied) :=
  match ts with
  | [] => Done ([], [], [])
  | t :: ts' =>
      '(t', is, fs) ← check_task (clk 0%nat) t;
      '(ts'', is', fs') ← health_loop (fun n => clk (S n)) ts';
      Done (t' :: ts'', app is is', app fs fs')
  end.

(** [health_check()]; returns the [issues] and [auto_fixes] lists it
    prints. The loop reads [clk]; the calls after it ([log_to_wal] and the
    entry's ["timestamp"]) read [now]. *)
Definition health_check (clk : clock) (now : Z) (data : store) : M (list issue * list fix_applied) :=
  let* r := lift (health_loop clk (tasks data)) in
  let '(ts, issues, fixes) := r in
  let data' := mkStore (goals data) ts in
  (if Nat.eqb (length fixes) 0 then mret tt else save_data data') ;;
  log_to_wal now "HEALTH_CHECK"
    [("issues_found", VInt (Z.of_nat (length issues)));
     ("auto_fixes_applied", VInt (Z.of_nat (length fixes))); ("timestamp", VStr (iso now))] ;;
  emit (EStdout [("success", VBool true);
                 ("health_status", VStr (if Nat.eqb (length issues) 0 then "healthy" else "issues_found"))]) ;;
  mret (issues, fixes).

(* ------------------------------------------------------------------ *)
(** ** Floats: Python's true division and [round(x, n)] *)

(** The integer nearest to [num / den] ([den > 0]), ties to even. *)
Definition round_half_even (num den : Z) : Z :=
  let q := num / den in
  let r := num mod den in
  match Z.compare (2 * r) den with
  | Lt => q
  | Gt => q + 1
  | Eq => if Z.even q then q else q + 1
  end.

(** The binary64 nearest to [p / q] (ties to even), for [p >= 0], [q > 0]
    and a quotient in the normal range: what Python's [int / int] returns,
    and [float(p)] for [q = 1]. *)
Definition q2float (p q : Z) : float :=
  if p =? 0 then 0%float
  else
    let e0 := Z.log2 p - Z.log2 q - 52 in
    let scaled (e : Z) := if 0 <=? e then (p, q * 2 ^ e) else (p * 2 ^ (- e), q) in
    let e := if fst (scaled e0) / snd (scaled e0) <? 2 ^ 52 then e0 - 1 else e0 in
    let m := round_half_even (fst (scaled e)) (snd (scaled e)) in
    let '(m, e) := if m =? 2 ^ 53 then (2 ^ 52, e + 1) else (m, e) in
    SF2Prim (S754_finite false (Z.to_pos m) e).

(** [round(x, n)] on a float: the exact binary value of [x] rounded to [n]
    decimals, ties to even (dtoa mode 3), read back as the nearest float
    (strtod). *)
Definition py_round_float (x : float) (n : Z) : float :=
  match Prim2SF x with
  | S754_finite s m e =>
      let '(num, den) := if 0 <=? e then (Zpos m * 2 ^ e * 10 ^ n, 1)
                         else (Zpos m * 10 ^ n, 2 ^ (- e)) in
      let f := q2float (round_half_even num den) (10 ^ n) in
      if s then (- f)%float else f
  | _ => x
  end.

(** A Python number the velocity report computes: an int or a float. *)
Inductive pynum : Type :=
  | PInt (z : Z)
  | PFloat (f : float).

(** [round(x, n)]: an int is returned unchanged. *)
Definition py_round (x : pynum) (n : Z) : pynum :=
  match x with PInt z => PInt z | PFloat f => PFloat (py_round_float f n) end.

(** [x > 0]. *)
Definition py_pos (x : pynum) : bool :=
  match x with PInt z => 0 <? z | PFloat f => (0 <? f)%float end.

(** [r / x] for an int [r >= 0] and [x > 0]. *)
Definition py_div_by (r : Z) (x : pynum) : pynum :=
  match x with
  | PInt z => PFloat (q2float r z)
  | PFloat f => PFloat (q2float r 1 / f)%float
  end.

(* ------------------------------------------------------------------ *)
(** ** Velocity Reporter, [show_velocity] (phase 1) *)

(** [s.split("T")[0]]. *)
Fixpoint before_T (s : string) : string :=
  match s with
  | EmptyString => ""
  | String c s' => if Ascii.eqb c (Ascii.ascii_of_nat 84) then "" else String c (before_T s')
  end.

Definition split_date (v : value) : outcome string :=
  match v with VStr s => Done (before_T s) | _ => Raised AttributeError end.

(** A list comprehension [[t for t in ts if p(t)]]. *)
Fixpoint filter_tasks (p : task -> outcome bool) (ts : list task) : outcome (list task) :=
  match ts with
  | [] => Done []
  | t :: ts' =>
      let? keep := p t in
      let? rest := filter_tasks p ts' in
      Done (if keep then t :: rest else rest)
  end.

(** [t["goal_id"] == goal_id and (t["status"] == "completed") == done]. *)
Definition goal_task_with (goal_id : string) (done : bool) (t : task) : outcome bool :=
  let? g := get_item t "goal_id" in
  if py_eq g (VStr goal_id) then
    let? st := get_item t "status" in Done (Bool.eqb (is_str st "completed") done)
  else Done false.

(** The [by_day] loop: [by_day[completed_date] += 1] on a defaultdict. *)
Fixpoint count_by_day (by_day : gmap string Z) (ts : list task) : outcome (gmap string Z) :=
  match ts with
  | [] => Done by_day
  | t :: ts' =>
      if bool_decide (is_Some (t !! "completed_at")) then
        let? ca := get_item t "completed_at" in
        let? d := split_date ca in
        count_by_day (<[d := default 0 (by_day !! d) + 1]> by_day) ts'
      else count_by_day by_day ts'
  end.

Record velocity_report : Type := mkReport {
  vr_completed : nat;
  vr_remaining : nat;
  vr_days_tracked : nat;
  vr_velocity : pynum;          (* velocity_tasks_per_day *)
  vr_estimated_days : pynum;    (* estimated_days_to_completion *)
  vr_by_day : gmap string Z }.  (* completions_by_day *)

(** The result object [show_velocity] prints, [None] when the goal is not
    found. *)
Definition velocity_of (data : store) (goal_id : string) : outcome (option velocity_report) :=
  let? goal := find_goal_from (goals data) (VStr goal_id) in
  match goal with
  | None => Done None
  | Some _ =>
      let? completed := filter_tasks (goal_task_with goal_id true) (tasks data) in
      let? by_day := count_by_day ∅ completed in
      let? remaining := filter_tasks (goal_task_with goal_id false) (tasks data) in
      let velocity := if Nat.eqb (size by_day) 0 then PInt 0
                      else PFloat (q2float (Z.of_nat (length completed)) (Z.of_nat (size by_day))) in
      let days_to_completion :=
        if py_pos velocity then py_div_by (Z.of_nat (length remaining)) velocity else PInt 0 in
      Done (Some (mkReport (length completed) (length remaining) (size by_day)
                    (py_round velocity 2) (py_round days_to_completion 1) by_day))
  end.

Definition show_velocity (data : store) (goal_id : string) : M velocity_report :=
  let* r := lift (velocity_of data goal_id) in
  match r with
  | None => fail_exit ("Goal not found: " ++ goal_id)
  | Some rep => mret rep
  end.

(* ------------------------------------------------------------------ *)
(** ** Reading a trace *)

(** The store as the last [save_data] of the trace left it. *)
Fixpoint saved (tr : list effect) : option store :=
  match tr with
  | [] => None
  | e :: tr' =>
      match saved tr' with
      | Some d => Some d
      | None => match e with ESave d => Some d | _ => None end
      end
  end.

(** No store save happens before the first WAL append. *)
Fixpoint wal_before_save (tr : list effect) : bool :=
  match tr with
  | [] => true
  | EWal _ _ :: _ => true
  | ESave _ :: _ => false
  | _ :: tr' => wal_before_save tr'
  end.

(** The task at index [i] of the saved store. *)
Definition saved_task (tr : list effect) (i : nat) : option task :=
  d ← saved tr; tasks d !! i.

(** The dates the claim counts: [completed_at.split("T")[0]] of every task
    that has the key, in order, with repetitions. *)
Fixpoint completion_dates (ts : list task) : outcome (list string) :=
  match ts with
  | [] => Done []
  | t :: ts' =>
      if bool_decide (is_Some (t !! "completed_at")) then
        let? ca := get_item t "completed_at" in
        let? d := split_date ca in
        let? ds := completion_dates ts' in
        Done (d :: ds)
      else completion_dates ts'
  end.

(* ------------------------------------------------------------------ *)
(** ** Sample stores *)

Definition sample_goal : task :=
  <["id" := VStr "goal_1"]> (<["title" := VStr "Ship"]> (<["priority" := VStr "medium"]> ∅)).

Definition task_with (status : string) (progress : Z) : task :=
  <["id" := VStr "task_1"]> (<["goal_id" := VStr "goal_1"]> (<["title" := VStr "Write"]>
    (<["status" := VStr status]> (<["progress" := VInt progress]> ∅)))).

Definition sample_store (ts : list task) : store := mkStore [sample_goal] ts.

Definition sample_now : Z := 1760443200000000.   (* 2025-10-14T12:00:00 UTC *)

Definition recurring_task (recurring : value) (progress : Z) : task :=
  <["recurring" := recurring]> (task_with "in_progress" progress).

(** Four completed tasks of [goal_1] over two dates, and two remaining. *)
Definition done_on (id date : string) : task :=
  <["completed_at" := VStr (date ++ "T09:30:00+00:00Z")]> (<["id" := VStr id]> (task_with "completed" 100)).

Definition velocity_store : store :=
  sample_store [done_on "t1" "2025-10-01"; done_on "t2" "2025-10-01"; done_on "t3" "2025-10-02";
                done_on "t4" "2025-10-02"; <["id" := VStr "t5"]> (task_with "pending" 0);
                <["id" := VStr "t6"]> (task_with "in_progress" 50)].


(* ------------------------------------------------------------------ *)
(** ** More of task_manager_phase1.py *)

(** [unblock_task] (phase 1). *)
Definition unblock_task1 (now : Z) (data : store) (task_id : string) : M unit :=
  let* found := lift (find_task_by_id data task_id) in
  match found with
  | None => fail_exit ("Task not found: " ++ task_id)
  | Some (i, task) =>
      let task1 := <["updated_at" := stamp now]>
                     (<["blocked_reason" := VNull]> (<["status" := VStr "pending"]> task)) in
      save_data (set_task data i task1) ;;
      emit (EStdout [("success", VBool true); ("task", task_json task1)])
  end.

(** The command-line layer converts argument strings with Python's [int()];
    the conversion is a parameter here ([py_int s] is [int(s)], or the
    exception it raises). *)
Section IntConversion.
Variable py_int : string -> outcome Z.

(** [create_recurring] (phase 1): [priority] is [args.priority] (None or a
    choice), [recurring] is [args.recurring] (argparse's default ["weekly"]
    already applied), [estimate] is [args.estimate] and [new_id] is
    [generate_id("task")]. *)
Definition create_recurring (now : Z) (data : store) (goal_id title : string)
    (priority : option string) (recurring : string) (estimate : option string) (new_id : string)
    : M unit :=
  let* goal := lift (find_goal_from (goals data) (VStr goal_id)) in
  match goal with
  | None => fail_exit ("Goal not found: " ++ goal_id)
  | Some _ =>
      let prio := match priority with
                  | Some p => if String.eqb p "" then "medium" else p
                  | None => "medium"
                  end in
      let task0 := <["notes" := VStr ""]> (<["created_at" := stamp now]>
                   (<["next_due_at" := stamp now]> (<["recurring" := VStr recurring]>
                   (<["progress" := VInt 0]> (<["status" := VStr "pending"]>
                   (<["priority" := VStr prio]> (<["title" := VStr title]>
                   (<["goal_id" := VStr goal_id]> (<["id" := VStr new_id]> ∅))))))))) in
      let* task := match estimate with
                   | Some e =>
                       if String.eqb e "" then mret task0
                       else let* n := lift (py_int e) in mret (<["estimate_minutes" := VInt n]> task0)
                   | None => mret task0
                   end in
      save_data (mkStore (goals data) (app (tasks data) [task])) ;;
      emit (EStdout [("success", VBool true); ("task", task_json task)])
  end.

(** What the [__main__] block of task_manager_phase2.py does with
    [sys.argv]: print a usage or error text and [sys.exit(1)], call one
    operation, or flush the working buffer. *)
Inductive cli_step : Type :=
  | CliExit (to_stderr : bool) (lines : list string)
  | CliRun (m : M unit)
  | CliFlush.

(** The [__main__] block of task_manager_phase2.py on [argv] (with
    [argv[0]] the script), [data] being what the called operation loads
    and [clk] the clock of a health-check pass. *)
Definition main2 (clk : clock) (now : Z) (data : store) (argv : list string) : outcome cli_step :=
  match argv with
  | [] | [_] =>
      Done (CliExit false ["Usage: task_manager_phase2.py <command> [args]";
                           "Commands: mark-progress, log-time, mark-blocked, health-check, flush-buffer"])
  | _ :: command :: rest =>
      let task_id := nth_error rest 0 in
      let no_id := match task_id with Some s => String.eqb s "" | None => true end in
      if String.eqb command "mark-progress" then
        let? progress := (match nth_error rest 1 with Some s => py_int s | None => Done 0 end) in
        let notes := default "" (nth_error rest 2) in
        if no_id then
          Done (CliExit true ["Usage: task_manager_phase2.py mark-progress <task_id> <progress> [notes]"])
        else Done (CliRun (mark_progress2 now data (default "" task_id) progress notes))
      else if String.eqb command "log-time" then
        let? minutes := (match nth_error rest 1 with Some s => py_int s | None => Done 0 end) in
        let notes := default "" (nth_error rest 2) in
        if no_id then
          Done (CliExit true ["Usage: task_manager_phase2.py log-time <task_id> <minutes> [notes]"])
        else Done (CliRun (log_time2 now data (default "" task_id) minutes notes))
      else if String.eqb command "mark-blocked" then
        let reason := default "No reason specified" (nth_error rest 1) in
        if no_id then
          Done (CliExit true ["Usage: task_manager_phase2.py mark-blocked <task_id> <reason>"])
        else Done (CliRun (mark_blocked2 now data (default "" task_id) reason))
      else if String.eqb command "health-check" then
        Done (CliRun (_ ← health_check clk now data; mret tt))
      else if String.eqb command "flush-buffer" then Done CliFlush
      else Done (CliExit true ["Unknown command: " ++ command])
  end.

End IntConversion.

(* ------------------------------------------------------------------ *)
(** ** The working buffer and the daily memory files (phase 2) *)

(** The files [append_to_buffer] and [flush_working_buffer] touch: the
    working buffer (absent or its text) and the daily memory files
    [memory/<date>.md] by name. *)
Record memory_files : Type := mkFiles {
  working_buffer : option string;
  daily_files : gmap string string }.

(** The line [append_to_buffer(event_type, details)] writes. *)
Definition buffer_entry (now : Z) (event_type details : string) : string :=
  "- " ++ event_type ++ " (" ++ iso now ++ "): " ++ details ++ newline.

(** [append_to_buffer] on the files: [open(..., 'a')] creates the buffer
    when it is absent. *)
Definition append_to_buffer_file (now : Z) (event_type details : string) (fs : memory_files)
    : memory_files :=
  mkFiles (Some (default "" (working_buffer fs) ++ buffer_entry now event_type details))
          (daily_files fs).

Definition nl_char : Ascii.ascii := Ascii.ascii_of_nat 10.

(** [s.split('\n')]. *)
Fixpoint split_nl (s : string) : list string :=
  match s with
  | EmptyString => [""]
  | String c s' =>
      let rest := split_nl s' in
      if Ascii.eqb c nl_char then "" :: rest
      else match rest with
           | h :: t => String c h :: t
           | [] => [String c ""]
           end
  end.

(** [flush_working_buffer()]: the files it leaves; the result object it
    prints is the trace (the daily file is named without its directory). *)
Definition flush_working_buffer (now : Z) (fs : memory_files) : M memory_files :=
  match working_buffer fs with
  | None => mret fs
  | Some buffer_content =>
      let daily_file := today now ++ ".md" in
      let section := newline ++ "## Task Updates" ++ newline ++ buffer_content ++ newline in
      let fs' := mkFiles (Some "")
                   (<[daily_file := default "" (daily_files fs !! daily_file) ++ section]> (daily_files fs)) in
      emit (EStdout [("success", VBool true); ("message", VStr ("Buffer flushed to " ++ daily_file));
                     ("lines_flushed", VInt (Z.of_nat (length (split_nl buffer_content))))]) ;;
      mret fs'
  end.

(** Number of newlines of a string. *)
Fixpoint count_nl (s : string) : nat :=
  match s with
  | EmptyString => O
  | String c s' => (if Ascii.eqb c nl_char then 1 else 0) + count_nl s'
  end.

(** [t["goal_id"] == goal_id], the goal test of [show_velocity]'s two
    comprehensions. *)
Definition goal_task (goal_id : string) (t : task) : outcome bool :=
  let? g := get_item t "goal_id" in Done (py_eq g (VStr goal_id)).

(** More sample tasks. *)
Definition noted_task : task := <["notes" := VStr "a"]> (task_with "in_progress" 10).
Definition zero_estimate_task : task := <["estimate_minutes" := VInt 0]> (<["actual_minutes" := VInt 5]> (task_with "pending" 0)).
Definition overrun_task : task := <["estimate_minutes" := VInt 1]> (<["actual_minutes" := VInt 30]> (task_with "pending" 0)).
Definition completed_today : task := <["completed_at" := stamp sample_now]> (task_with "completed" 100).
Definition completed_just_now : task := <["completed_at" := stamp (sample_now + 5)]> (task_with "completed" 100).
Definition repaired_task : task :=
  <["completed_at" := stamp sample_now]> (<["progress" := VInt 100]> (task_with "completed" 40)).


(* ------------------------------------------------------------------ *)
(** ** Lemmas on the embedding *)

Ltac unfold_M :=
  cbv beta iota zeta delta [bind ret raise emit lift run mbind mret M_bind M_ret save_data
                            fail_exit status_is obind outcome_bind outcome_ret].
Ltac unfold_M_in H :=
  cbv beta iota zeta delta [bind ret raise emit lift run mbind mret M_bind M_ret save_data
                            fail_exit status_is obind outcome_bind outcome_ret] in H.

Lemma find_task_from_lookup (ts : list task) (task_id : string) (k i : nat) (t : task) :
  find_task_from k ts task_id = Done (Some (i, t)) -> (k <= i)%nat /\ ts !! (i - k)%nat = Some t.
Proof.
  revert k. induction ts as [|t' ts IH]; intros k H; simpl in H; [discriminate|].
  destruct (get_item t' "id") as [v|e]; simpl in H; [|discriminate].
  destruct (is_str v task_id).
  - injection H as <- <-. rewrite Nat.sub_diag. split; [lia|reflexivity].
  - destruct (IH (S k) H) as [Hle Hl]. split; [lia|].
    replace (i - k)%nat with (S (i - S k)) by lia. exact Hl.
Qed.

Lemma find_task_lookup (data : store) (task_id : string) (i : nat) (t : task) :
  find_task_by_id data task_id = Done (Some (i, t)) -> tasks data !! i = Some t.
Proof.
  intros H. apply find_task_from_lookup in H as [_ H]. rewrite Nat.sub_0_r in H. exact H.
Qed.

Lemma saved_app (l1 l2 : list effect) :
  saved (app l1 l2) = match saved l2 with Some d => Some d | None => saved l1 end.
Proof.
  induction l1 as [|e l1 IH]; simpl.
  - destruct (saved l2); reflexivity.
  - rewrite IH. destruct (saved l2); reflexivity.
Qed.

(** A computation that appends no store save to the trace. *)
Definition no_save {A} (m : M A) : Prop :=
  forall tr, exists ex o, m tr = (app tr ex, o) /\ saved ex = None.

Lemma no_save_bind {A B} (m : M A) (f : A -> M B) :
  no_save m -> (forall a, no_save (f a)) -> no_save (bind m f).
Proof.
  intros Hm Hf tr. unfold bind. destruct (Hm tr) as (ex & o & Heq & Hs). rewrite Heq.
  destruct o as [a|e].
  - destruct (Hf a (app tr ex)) as (ex' & o' & Heq' & Hs'). rewrite Heq'.
    exists (app ex ex'), o'. rewrite app_assoc. split; [reflexivity|].
    rewrite saved_app, Hs', Hs. reflexivity.
  - exists ex, (Raised e). split; [reflexivity|exact Hs].
Qed.

Lemma no_save_ret {A} (a : A) : no_save (mret a).
Proof. intros tr. exists [], (Done a). rewrite app_nil_r. split; reflexivity. Qed.

Lemma no_save_lift {A} (o : outcome A) : no_save (lift o).
Proof.
  intros tr. exists []. rewrite app_nil_r. destruct o; [exists (Done a)|exists (Raised e)]; split; reflexivity.
Qed.

Lemma no_save_emit (e : effect) : (forall d, e <> ESave d) -> no_save (emit e).
Proof.
  intros He tr. exists [e], (Done tt). split; [reflexivity|].
  destruct e; simpl; try reflexivity. exfalso. exact (He data eq_refl).
Qed.

Lemma no_save_after_save (data : store) (t : task) (ev id : string) :
  no_save (after_save data t ev id).
Proof.
  unfold after_save, update_session_state, append_to_buffer, mbind, M_bind.
  apply no_save_bind; [apply no_save_lift|]. intros goal.
  apply no_save_bind; [|intros; apply no_save_emit; discriminate].
  destruct goal.
  - apply no_save_bind; [apply no_save_lift|]. intros b.
    apply no_save_bind; [destruct b; [apply no_save_lift|apply no_save_ret]|].
    intros. apply no_save_emit. discriminate.
  - apply no_save_ret.
Qed.

(** Replaces the [after_save] tail of a phase-2 run by what it appends. *)
Ltac after_save_tail :=
  match goal with
  | |- context [after_save ?a ?b ?c ?d ?tr] =>
      let ex := fresh "ex" in let o := fresh "o" in
      let Heq := fresh "Heq" in let Hs := fresh "Hs" in
      destruct (no_save_after_save a b c d tr) as (ex & o & Heq & Hs); rewrite Heq;
      destruct o; cbn [fst snd]; rewrite ?saved_app, ?Hs
  end.

Lemma is_str_ne (v : value) (s : string) : v <> VStr s -> is_str v s = false.
Proof. destruct v; simpl; try reflexivity. intros H. apply String.eqb_neq. congruence. Qed.

(** An accepted [next_recurring] call saves the store with one task appended
    whose [next_due_at] is moved by [recurrence_delta] of the recurring
    value. *)
Lemma next_recurring_successor_due (now : Z) (data : store) (task_id new_id : string) (i : nat)
    (t : task) (r : value) (tr : list effect) :
  find_task_by_id data task_id = Done (Some (i, t)) ->
  t !! "recurring" = Some r ->
  run (next_recurring now data task_id new_id) = (tr, Done tt) ->
  exists ts nt, saved tr = Some (mkStore (goals data) (app ts [nt])) /\
    nt !! "next_due_at" = Some (stamp (now + recurrence_delta r)).
Proof.
  intros Hf Hr H. unfold next_recurring in H. unfold_M_in H. rewrite Hf in H.
  unfold get_default in H. rewrite Hr in H. cbn -[insert lookup delete] in H.
  destruct (is_str r "none"); cbn -[insert lookup delete py_lt] in H; [discriminate|].
  destruct (py_lt _ _) as [[|]|]; cbn -[insert lookup delete] in H; try discriminate.
  unfold get_item in H. rewrite !lookup_insert_ne, Hr in H by discriminate.
  cbn -[insert lookup delete] in H.
  injection H as <-. do 2 eexists. split; [reflexivity|]. simplify_map_eq. reflexivity.
Qed.

(** [String.compare] as a total preorder: transitivity of [<=], and a
    string sorts before its extensions. *)
Lemma string_compare_le_trans (s1 s2 s3 : string) :
  String.compare s1 s2 <> Gt -> String.compare s2 s3 <> Gt -> String.compare s1 s3 <> Gt.
Proof.
  revert s2 s3. induction s1 as [|a s1 IH]; intros [|b s2] [|c s3]; simpl; try congruence.
  destruct (Ascii.compare a b) eqn:Eab; intros H1 H2.
  - apply Ascii.compare_eq_iff in Eab. subst b.
    destruct (Ascii.compare a c); [exact (IH _ _ H1 H2)|discriminate|exact H2].
  - destruct (Ascii.compare b c) eqn:Ebc; [| |congruence].
    + apply Ascii.compare_eq_iff in Ebc. subst c. rewrite Eab. discriminate.
    + unfold Ascii.compare in *. rewrite N.compare_lt_iff in Eab, Ebc.
      replace (N.compare (Ascii.N_of_ascii a) (Ascii.N_of_ascii c)) with Lt
        by (symmetry; apply N.compare_lt_iff; eapply N.lt_trans; eassumption).
      discriminate.
  - congruence.
Qed.

Lemma string_compare_prefix (s t : string) : String.compare s (s ++ t) <> Gt.
Proof.
  induction s as [|a s IH]; simpl.
  - destruct t; discriminate.
  - unfold Ascii.compare at 1. rewrite N.compare_refl. exact IH.
Qed.

(** Lookups through the conditional writes of [check_task]. *)
Lemma lookup_if_insert (c : bool) (k k' : string) (v : value) (t : task) :
  (if c then <[k:=v]> t else t) !! k' = if c && String.eqb k k' then Some v else t !! k'.
Proof.
  destruct c; simpl; [|reflexivity].
  destruct (String.eqb_spec k k') as [->|Hne]; [apply lookup_insert_eq|].
  apply lookup_insert_ne. exact Hne.
Qed.

Lemma lookup_insert_str (k k' : string) (v : value) (t : task) :
  (<[k:=v]> t) !! k' = if String.eqb k k' then Some v else t !! k'.
Proof.
  destruct (String.eqb_spec k k') as [->|Hne]; [apply lookup_insert_eq|].
  apply lookup_insert_ne. exact Hne.
Qed.

(** A stamp is a nonempty string, and a first-pass stamp is not in the
    future of a later pass. *)
Lemma truthy_stamp (t : Z) : truthy (stamp t) = true.
Proof.
  unfold stamp, truthy. destruct (iso t); reflexivity.
Qed.

Lemma py_gt_stamp (now1 now2 : Z) :
  String.compare (iso now1 ++ "Z") (iso now2) <> Gt -> py_gt (stamp now1) (VStr (iso now2)) = Done false.
Proof.
  intros H. unfold py_gt, py_lt, stamp. cbn [as_number]. rewrite String.compare_antisym.
  destruct (String.compare (iso now1 ++ "Z") (iso now2)); cbn [CompOpp]; congruence.
Qed.

Lemma py_gt_later (x : value) (now1 now2 : Z) :
  String.compare (iso now1 ++ "Z") (iso now2) <> Gt ->
  py_gt x (VStr (iso now1)) = Done false -> py_gt x (VStr (iso now2)) = Done false.
Proof.
  intros Hclk H. unfold py_gt, py_lt in *. cbn [as_number] in *.
  destruct x; cbn [as_number] in *; try discriminate H.
  assert (Hs : String.compare s (iso now1) <> Gt).
  { rewrite String.compare_antisym. destruct (String.compare (iso now1) s); cbn [CompOpp]; congruence. }
  pose proof (string_compare_le_trans _ _ _ Hs
                (string_compare_le_trans _ _ _ (string_compare_prefix (iso now1) "Z") Hclk)) as H2.
  rewrite String.compare_antisym. destruct (String.compare s (iso now2)); cbn [CompOpp]; congruence.
Qed.

(** Case analysis of one [check_task] run in hypothesis [H]. *)
Ltac norm_lookups H :=
  unfold get_default in H;
  rewrite ?lookup_if_insert, ?lookup_insert_str, ?andb_false_r, ?andb_true_r in H;
  cbn [String.eqb Ascii.eqb Bool.eqb andb negb orb obind mbind outcome_bind] in H.

Ltac split_in H :=
  match type of H with
  | context [if ?c then _ else _] => let E := fresh "E" in destruct c eqn:E
  | context [obind ?o _] => let E := fresh "E" in destruct o eqn:E; [|discriminate H]
  end.

(** A task on which none of the fixing checks fires comes out of
    [check_task] unchanged with no fix. *)
Lemma check_task_no_fix (k : tick_times) (t : task) :
  truthy (get_default t "recurring" VNull) && negb (truthy (get_default t "goal_id" VNull)) = false ->
  (is_str (get_default t "status" VNull) "completed" = true ->
     py_lt (get_default t "progress" (VInt 100)) (VInt 100) = Done false
     /\ truthy (get_default t "completed_at" VNull) = true
     /\ py_gt (get_default t "completed_at" (VStr "")) (VStr (iso (at_compare k))) = Done false) ->
  (exists bound c4, py_mul10 (get_default t "estimate_minutes" (VInt 1)) = Done bound
     /\ py_gt (get_default t "actual_minutes" (VInt 0)) bound = Done c4
     /\ (if c4 then py_truediv_check (get_default t "actual_minutes" (VInt 0))
                      (get_default t "estimate_minutes" (VInt 1)) else Done tt) = Done tt) ->
  exists is', check_task k t = Done (t, is', []).
Proof.
  intros N1 N2 (bound & c4 & E1 & E2 & E3). unfold check_task. rewrite N1.
  cbv beta iota zeta delta [obind mbind outcome_bind].
  destruct (is_str (get_default t "status" VNull) "completed") eqn:Es.
  - destruct (N2 eq_refl) as (P & Q & R).
    repeat progress (rewrite ?Es, ?P, ?Q, ?R, ?E1, ?E2, ?E3; cbn beta iota zeta delta [andb negb]).
    eexists. reflexivity.
  - repeat progress (rewrite ?Es, ?E1, ?E2, ?E3; cbn beta iota zeta delta [andb negb]).
    eexists. reflexivity.
Qed.

(** What [check_task] returns passes the checks again with no fix. *)
Lemma check_task_again (k1 k2 : tick_times) (t0 t5 : task) (is : list issue) (fs : list fix_applied) :
  before_compare k1 (at_compare k2) ->
  check_task k1 t0 = Done (t5, is, fs) ->
  exists is', check_task k2 t5 = Done (t5, is', []).
Proof.
  intros (Ha & Hc & Hr) H.
  pose proof (py_gt_stamp _ _ Ha) as Hs1.
  pose proof (py_gt_stamp _ _ Hr) as Hs2.
  pose proof (fun x => py_gt_later x _ _ Hc) as Hl.
  pose proof (truthy_stamp (at_added k1)) as T1.
  pose proof (truthy_stamp (at_reset k1)) as T2.
  unfold check_task in H.
  set (S1 := stamp (at_added k1)) in *. set (S2 := stamp (at_reset k1)) in *.
  set (m1 := iso (at_compare k1)) in *.
  clearbody S1 S2 m1.
  repeat (norm_lookups H; split_in H).
  all: norm_lookups H; injection H as <- _ _.
  all: apply check_task_no_fix; [ | intros Hst; split; [|split] | do 2 eexists; split; [|split]].
  all: unfold get_default in *; rewrite ?lookup_insert_str in *;
       cbn [String.eqb Ascii.eqb Bool.eqb andb negb orb truthy py_lt as_number Z.ltb Z.compare] in *.
  all: repeat match goal with E : ?c = _ |- context [?c] => progress rewrite E end.
  all: cbn [String.eqb Ascii.eqb Bool.eqb andb negb orb truthy py_lt as_number Z.ltb Z.compare].
  all: try eassumption; try reflexivity; try congruence.
  all: try (match goal with |- context [if ?c then _ else _] => destruct c end;
            repeat match goal with u : unit |- _ => destruct u end; first [reflexivity | eassumption]).
  all: try (apply Hl; assumption).
  all: match goal with
       | E : ?a && negb ?b = false, Hst : ?a = true |- ?b = true =>
           rewrite Hst in E; destruct b; [reflexivity|discriminate E]
       end.
Unshelve. all: exact false.
Qed.

(** A pass with no fix leaves the tasks as they were. *)
Lemma check_task_unchanged (k : tick_times) (t0 t5 : task) (is : list issue) :
  check_task k t0 = Done (t5, is, []) -> t5 = t0.
Proof.
  intros H. unfold check_task in H.
  repeat (norm_lookups H; split_in H).
  all: norm_lookups H; cbn [app] in H; try discriminate H; injection H as <- _; reflexivity.
Qed.

Lemma health_loop_unchanged (clk : clock) (ts ts' : list task) (is : list issue) :
  health_loop clk ts = Done (ts', is, []) -> ts' = ts.
Proof.
  revert clk ts' is. induction ts as [|t ts IH]; intros clk ts' is H; cbn in H.
  - injection H as <- _. reflexivity.
  - destruct (check_task (clk 0%nat) t) as [[[t' is1] fs1]|] eqn:E1; [|discriminate H]. cbn in H.
    destruct (health_loop (fun n => clk (S n)) ts) as [[[ts1 is2] fs2]|] eqn:E2; [|discriminate H]. cbn in H.
    injection H as <- _ Hfs. apply app_eq_nil in Hfs as [-> ->].
    rewrite (check_task_unchanged _ t t' is1 E1), (IH _ ts1 is2 E2). reflexivity.
Qed.

Lemma health_loop_length (clk : clock) (ts ts' : list task) (is : list issue) (fs : list fix_applied) :
  health_loop clk ts = Done (ts', is, fs) -> length ts' = length ts.
Proof.
  revert clk ts' is fs. induction ts as [|t ts IH]; intros clk ts' is fs H; cbn in H.
  - injection H as <- _ _. reflexivity.
  - destruct (check_task (clk 0%nat) t) as [[[t' is1] fs1]|]; [|discriminate H]. cbn in H.
    destruct (health_loop (fun n => clk (S n)) ts) as [[[ts1 is2] fs2]|] eqn:E2; [|discriminate H]. cbn in H.
    injection H as <- _ _. cbn. rewrite (IH _ _ _ _ E2). reflexivity.
Qed.

Lemma health_loop_again (clk1 clk2 : clock) (ts ts' : list task) (is : list issue) (fs : list fix_applied) :
  (forall i j, (i < length ts)%nat -> (j < length ts)%nat -> before_compare (clk1 i) (at_compare (clk2 j))) ->
  health_loop clk1 ts = Done (ts', is, fs) ->
  exists is', health_loop clk2 ts' = Done (ts', is', []).
Proof.
  revert clk1 clk2 ts' is fs. induction ts as [|t ts IH]; intros clk1 clk2 ts' is fs Hclk H; cbn in H.
  - injection H as <- _ _. exists []. reflexivity.
  - destruct (check_task (clk1 0%nat) t) as [[[t' is1] fs1]|] eqn:E1; [|discriminate H]. cbn in H.
    destruct (health_loop (fun n => clk1 (S n)) ts) as [[[ts1 is2] fs2]|] eqn:E2; [|discriminate H]. cbn in H.
    injection H as <- _ _.
    destruct (check_task_again (clk1 0%nat) (clk2 0%nat) t t' is1 fs1
                (Hclk 0%nat 0%nat ltac:(cbn; lia) ltac:(cbn; lia)) E1) as [is1' H1].
    destruct (IH (fun n => clk1 (S n)) (fun n => clk2 (S n)) ts1 is2 fs2
                (fun i j Hi Hj => Hclk (S i) (S j) ltac:(cbn; lia) ltac:(cbn; lia)) E2) as [is2' H2].
    exists (app is1' is2'). cbn. rewrite H1. cbn. rewrite H2. reflexivity.
Qed.

(** The [by_day] buckets are the distinct completion dates. *)
Lemma count_by_day_dom (m m' : gmap string Z) (ts : list task) :
  count_by_day m ts = Done m' ->
  exists ds, completion_dates ts = Done ds /\ dom m' = dom m ∪ list_to_set ds.
Proof.
  revert m. induction ts as [|t ts IH]; intros m H; cbn in H |- *.
  - injection H as <-. exists []. split; [reflexivity|]. set_solver.
  - destruct (bool_decide (is_Some (t !! "completed_at"))).
    + destruct (get_item t "completed_at") as [ca|]; cbn in H |- *; [|discriminate H].
      destruct (split_date ca) as [d|]; cbn in H |- *; [|discriminate H].
      destruct (IH _ H) as (ds & Hds & Hdom). rewrite Hds. cbn.
      exists (d :: ds). split; [reflexivity|]. rewrite Hdom, dom_insert_L. set_solver.
    + exact (IH m H).
Qed.

Lemma size_count_by_day (m : gmap string Z) (ts : list task) :
  count_by_day ∅ ts = Done m ->
  exists ds, completion_dates ts = Done ds /\ size m = length (remove_dups ds).
Proof.
  intros H. destruct (count_by_day_dom ∅ m ts H) as (ds & Hds & Hdom).
  exists ds. split; [exact Hds|].
  rewrite dom_empty_L, union_empty_l_L in Hdom.
  rewrite <- size_dom, Hdom.
  rewrite <- (size_list_to_set (C := gset string) (remove_dups ds)) by apply NoDup_remove_dups.
  f_equal. apply set_eq. intros x. rewrite !elem_of_list_to_set, elem_of_remove_dups. reflexivity.
Qed.

(* ================================================================== *)
(** * Claims *)

(** C1 (code bug). Phase-1 SetProgress(task_id, 100) on an [in_progress]
    task saves it [completed], with [completed_at] stamped and progress 100,
    as the transition rule requires; phase-2 SetProgress(task_id, 100) saves
    it with progress 100 and still [in_progress], never completing it. On a
    [pending] task, SetProgress(task_id, 100) (phase 1 or phase 2) saves
    progress 100 and moves the status to [in_progress] (the rule's
    [pending -> in_progress] edge): it is neither completed nor left
    [pending]. *)
Theorem mark_progress_reaching_100 (now : Z) (data : store) (task_id : string) (i : nat) (t : task) :
  find_task_by_id data task_id = Done (Some (i, t)) ->
  (t !! "status" = Some (VStr "in_progress") ->
   exists t', run (mark_progress1 now data task_id 100) =
              ([ESave (set_task data i t'); EStdout [("success", VBool true); ("task", task_json t')]],
               Done tt)
   /\ t' !! "status" = Some (VStr "completed") /\ t' !! "completed_at" = Some (stamp now)
   /\ t' !! "progress" = Some (VInt 100))
  /\ (t !! "status" = Some (VStr "in_progress") ->
   exists t2, saved (fst (run (mark_progress2 now data task_id 100 ""))) = Some (set_task data i t2)
   /\ t2 !! "status" = Some (VStr "in_progress") /\ t2 !! "progress" = Some (VInt 100))
  /\ (t !! "status" = Some (VStr "pending") ->
   (exists t', run (mark_progress1 now data task_id 100) =
              ([ESave (set_task data i t'); EStdout [("success", VBool true); ("task", task_json t')]],
               Done tt)
    /\ t' !! "status" = Some (VStr "in_progress") /\ t' !! "progress" = Some (VInt 100))
   /\ (exists t2, saved (fst (run (mark_progress2 now data task_id 100 ""))) = Some (set_task data i t2)
    /\ t2 !! "status" = Some (VStr "in_progress") /\ t2 !! "progress" = Some (VInt 100))).
Proof.
  intros Hf. split; [|split]; intros Hs.
  - unfold mark_progress1. unfold_M. rewrite Hf. cbn -[insert lookup].
    unfold get_item. rewrite !lookup_insert_ne by discriminate. rewrite Hs. cbn -[insert lookup].
    eexists. split; [reflexivity|]. simplify_map_eq. auto.
  - unfold mark_progress2, add_notes, log_to_wal. unfold_M. rewrite Hf. cbn -[insert lookup after_save].
    unfold get_default. rewrite !lookup_insert_ne by discriminate. rewrite Hs.
    cbn -[insert lookup after_save].
    after_save_tail; eexists; (split; [reflexivity|]); simplify_map_eq; auto.
  - split.
    + unfold mark_progress1. unfold_M. rewrite Hf. cbn -[insert lookup].
      unfold get_item. rewrite !lookup_insert_ne by discriminate. rewrite Hs. cbn -[insert lookup].
      eexists. split; [reflexivity|]. simplify_map_eq. auto.
    + unfold mark_progress2, add_notes, log_to_wal. unfold_M. rewrite Hf. cbn -[insert lookup after_save].
      unfold get_default. rewrite !lookup_insert_ne by discriminate. rewrite Hs.
      cbn -[insert lookup after_save].
      after_save_tail; eexists; (split; [reflexivity|]); simplify_map_eq; auto.
Qed.

(** C1 counterexample: SetProgress(task_1, 100) on a [pending] task leaves
    it [in_progress], not [pending]; and phase-2 SetProgress(task_1, 100)
    on an [in_progress] task leaves it [in_progress], not [completed]. *)
Lemma mark_progress_pending_100_not_pending :
  saved_task (fst (run (mark_progress1 sample_now (sample_store [task_with "pending" 0]) "task_1" 100))) 0
    ≫= (fun t => t !! "status") = Some (VStr "in_progress")
  /\ saved_task (fst (run (mark_progress1 sample_now (sample_store [task_with "pending" 0]) "task_1" 100))) 0
    ≫= (fun t => t !! "status") <> Some (VStr "pending")
  /\ saved_task (fst (run (mark_progress2 sample_now (sample_store [task_with "in_progress" 40]) "task_1" 100 ""))) 0
    ≫= (fun t => t !! "status") = Some (VStr "in_progress").
Proof. split; [|split]; vm_compute; [reflexivity|discriminate|reflexivity]. Qed.

Lemma mark_progress_reaching_100_witness :
  find_task_by_id (sample_store [task_with "in_progress" 40]) "task_1"
    = Done (Some (0%nat, task_with "in_progress" 40))
  /\ exists t', run (mark_progress1 sample_now (sample_store [task_with "in_progress" 40]) "task_1" 100) =
       ([ESave (set_task (sample_store [task_with "in_progress" 40]) 0 t');
         EStdout [("success", VBool true); ("task", task_json t')]], Done tt)
     /\ t' !! "status" = Some (VStr "completed") /\ t' !! "completed_at" = Some (stamp sample_now)
     /\ t' !! "progress" = Some (VInt 100).
Proof.
  split; [vm_compute; reflexivity|].
  apply (proj1 (mark_progress_reaching_100 sample_now (sample_store [task_with "in_progress" 40])
                  "task_1" 0 (task_with "in_progress" 40) ltac:(vm_compute; reflexivity))).
  vm_compute. reflexivity.
Defined.

(** C10. MarkBlocked(task_id, reason) succeeds on every task present in
    the store, whatever its status: phase 1 returns normally, and phases 1
    and 2 both save the task with [status = blocked] and
    [blocked_reason = reason], every other field except [updated_at]
    unchanged. A completed task keeps progress 100 and its [completed_at]
    while becoming blocked. *)
Theorem mark_blocked_any_status (now : Z) (data : store) (task_id reason : string) (i : nat) (t : task) :
  find_task_by_id data task_id = Done (Some (i, t)) ->
  exists t',
    run (mark_blocked1 now data task_id reason) =
      ([ESave (set_task data i t'); EStdout [("success", VBool true); ("task", task_json t')]], Done tt)
    /\ saved (fst (run (mark_blocked2 now data task_id reason))) = Some (set_task data i t')
    /\ t' !! "status" = Some (VStr "blocked")
    /\ t' !! "blocked_reason" = Some (VStr reason)
    /\ (forall k, k <> "status" -> k <> "blocked_reason" -> k <> "updated_at" -> t' !! k = t !! k)
    /\ (t !! "status" = Some (VStr "completed") -> t !! "progress" = Some (VInt 100) ->
        t' !! "progress" = Some (VInt 100) /\ t' !! "completed_at" = t !! "completed_at").
Proof.
  intros Hf.
  exists (<["updated_at" := stamp now]> (<["blocked_reason" := VStr reason]> (<["status" := VStr "blocked"]> t))).
  split; [unfold mark_blocked1; unfold_M; rewrite Hf; reflexivity|].
  split.
  { unfold mark_blocked2, log_to_wal. unfold_M. rewrite Hf. cbn -[insert lookup after_save].
    after_save_tail; reflexivity. }
  split; [simplify_map_eq; reflexivity|].
  split; [simplify_map_eq; reflexivity|].
  assert (Hframe : forall k, k <> "status" -> k <> "blocked_reason" -> k <> "updated_at" ->
            (<["updated_at" := stamp now]> (<["blocked_reason" := VStr reason]>
               (<["status" := VStr "blocked"]> t))) !! k = t !! k).
  { intros k H1 H2 H3. rewrite !lookup_insert_ne by congruence. reflexivity. }
  split; [exact Hframe|].
  intros _ Hp. rewrite !Hframe by discriminate. split; [exact Hp|reflexivity].
Qed.

Lemma mark_blocked_any_status_witness :
  exists t', run (mark_blocked1 sample_now (sample_store [task_with "completed" 100]) "task_1" "waiting") =
      ([ESave (set_task (sample_store [task_with "completed" 100]) 0 t');
        EStdout [("success", VBool true); ("task", task_json t')]], Done tt)
    /\ t' !! "status" = Some (VStr "blocked").
Proof.
  destruct (mark_blocked_any_status sample_now (sample_store [task_with "completed" 100]) "task_1" "waiting"
              0 (task_with "completed" 100) ltac:(vm_compute; reflexivity))
    as (t' & H1 & _ & H3 & _).
  exists t'. split; assumption.
Defined.

(** C4. On a recurring task (the ["recurring"] key present and not
    ["none"]), AdvanceRecurring with progress < 100 fails with the
    IncompleteTask error and exit status 1, saving nothing and creating no
    successor. With progress 100 it succeeds: the saved store has the
    original task, in place, [completed] with progress 100 and
    [completed_at] stamped, followed by exactly one new task with the id
    [generate_id] returned, progress 0, status [pending] and
    [actual_minutes] 0. *)
Theorem next_recurring_gate (now : Z) (data : store) (task_id new_id : string) (i : nat) (t : task)
    (r : value) :
  find_task_by_id data task_id = Done (Some (i, t)) ->
  t !! "recurring" = Some r -> r <> VStr "none" ->
  (forall p, get_default t "progress" (VInt 0) = VInt p -> p < 100 ->
     run (next_recurring now data task_id new_id) =
       ([EStderr "Task must be 100% complete before creating next occurrence"], Raised (SystemExit 1)))
  /\ (t !! "progress" = Some (VInt 100) ->
     exists t1 nt, run (next_recurring now data task_id new_id) =
        ([ESave (mkStore (goals data) (app (<[i := t1]> (tasks data)) [nt]));
          EStdout [("success", VBool true); ("completed", task_json t1); ("next", task_json nt)]], Done tt)
     /\ t1 !! "status" = Some (VStr "completed") /\ t1 !! "progress" = Some (VInt 100)
     /\ t1 !! "completed_at" = Some (stamp now)
     /\ nt !! "id" = Some (VStr new_id) /\ nt !! "status" = Some (VStr "pending")
     /\ nt !! "progress" = Some (VInt 0) /\ nt !! "actual_minutes" = Some (VInt 0)).
Proof.
  intros Hf Hr Hn. split.
  - intros p Hp Hlt. unfold next_recurring. unfold_M. rewrite Hf, Hp.
    unfold get_default. rewrite Hr, (is_str_ne r "none" Hn).
    rewrite bool_decide_eq_true_2 by (eexists; reflexivity). cbn -[insert lookup delete].
    replace (p <? 100) with true by (symmetry; apply Z.ltb_lt; exact Hlt). reflexivity.
  - intros Hp. unfold next_recurring. unfold_M. rewrite Hf.
    unfold get_default. rewrite Hr, Hp, (is_str_ne r "none" Hn).
    rewrite bool_decide_eq_true_2 by (eexists; reflexivity). cbn -[insert lookup delete].
    unfold get_item. rewrite !lookup_insert_ne by discriminate. rewrite Hr. cbn -[insert lookup delete].
    do 2 eexists. split; [reflexivity|]. simplify_map_eq. auto 10.
Qed.

Lemma next_recurring_gate_witness :
  run (next_recurring sample_now (sample_store [recurring_task (VStr "weekly") 60]) "task_1" "task_2") =
    ([EStderr "Task must be 100% complete before creating next occurrence"], Raised (SystemExit 1)).
Proof.
  apply (proj1 (next_recurring_gate sample_now (sample_store [recurring_task (VStr "weekly") 60])
                  "task_1" "task_2" 0 (recurring_task (VStr "weekly") 60) (VStr "weekly")
                  ltac:(vm_compute; reflexivity) ltac:(vm_compute; reflexivity) ltac:(discriminate))
                  60 ltac:(vm_compute; reflexivity)).
  lia.
Defined.

(** C7. When AdvanceRecurring is accepted at instant [now], the successor
    (the one task appended to the saved store) has [next_due_at] stamped at
    [now] plus one day for ["daily"], seven days for ["weekly"], thirty days
    for ["monthly"], and at [now] itself for any other recurring value. *)
Theorem next_recurring_interval (now : Z) (data : store) (task_id new_id : string) (i : nat) (t : task)
    (r : value) (tr : list effect) :
  find_task_by_id data task_id = Done (Some (i, t)) ->
  t !! "recurring" = Some r ->
  run (next_recurring now data task_id new_id) = (tr, Done tt) ->
  exists ts nt, saved tr = Some (mkStore (goals data) (app ts [nt])) /\
    (r = VStr "daily" -> nt !! "next_due_at" = Some (stamp (now + 1 * 86400 * 1000000)))
    /\ (r = VStr "weekly" -> nt !! "next_due_at" = Some (stamp (now + 7 * 86400 * 1000000)))
    /\ (r = VStr "monthly" -> nt !! "next_due_at" = Some (stamp (now + 30 * 86400 * 1000000)))
    /\ (r <> VStr "daily" -> r <> VStr "weekly" -> r <> VStr "monthly" ->
        nt !! "next_due_at" = Some (stamp now)).
Proof.
  intros Hf Hr H.
  destruct (next_recurring_successor_due now data task_id new_id i t r tr Hf Hr H) as (ts & nt & Hs & Hd).
  exists ts, nt. split; [exact Hs|]. rewrite Hd.
  split; [intros ->; reflexivity|]. split; [intros ->; reflexivity|].
  split; [intros ->; reflexivity|].
  intros H1 H2 H3. unfold recurrence_delta.
  rewrite (is_str_ne _ _ H1), (is_str_ne _ _ H2), (is_str_ne _ _ H3), Z.add_0_r. reflexivity.
Qed.

Lemma next_recurring_interval_witness :
  exists ts nt,
    saved (fst (run (next_recurring sample_now (sample_store [recurring_task (VStr "daily") 100])
                       "task_1" "task_2")))
      = Some (mkStore [sample_goal] (app ts [nt]))
    /\ nt !! "next_due_at" = Some (stamp (sample_now + 1 * 86400 * 1000000)).
Proof.
  destruct (next_recurring_interval sample_now (sample_store [recurring_task (VStr "daily") 100])
              "task_1" "task_2" 0 (recurring_task (VStr "daily") 100) (VStr "daily")
              (fst (run (next_recurring sample_now (sample_store [recurring_task (VStr "daily") 100])
                           "task_1" "task_2")))
              ltac:(vm_compute; reflexivity) ltac:(vm_compute; reflexivity) ltac:(vm_compute; reflexivity))
    as (ts & nt & Hs & Hd & _).
  exists ts, nt. split; [exact Hs|exact (Hd eq_refl)].
Defined.

(** C9. The NotRecurring guard of AdvanceRecurring only rejects a task
    whose ["recurring"] is the string ["none"] or absent: a task whose
    ["recurring"] is present but [None] (null), with progress 100, is
    advanced. The saved store holds the task [completed] and one appended
    successor [pending] with the fresh id, whose [next_due_at] is [now]
    itself (the interval for any other recurring value). And null is what
    the health check's orphaned-recurring fix writes: on a task with a
    truthy ["recurring"] and a falsy ["goal_id"], check 1 sets
    ["recurring"] to [None] and records the fix. *)
Theorem next_recurring_null (now : Z) (data : store) (task_id new_id : string) (i : nat) (t : task) :
  find_task_by_id data task_id = Done (Some (i, t)) ->
  t !! "recurring" = Some VNull -> t !! "progress" = Some (VInt 100) ->
  (exists t1 nt, run (next_recurring now data task_id new_id) =
        ([ESave (mkStore (goals data) (app (<[i := t1]> (tasks data)) [nt]));
          EStdout [("success", VBool true); ("completed", task_json t1); ("next", task_json nt)]], Done tt)
     /\ t1 !! "status" = Some (VStr "completed")
     /\ nt !! "id" = Some (VStr new_id) /\ nt !! "status" = Some (VStr "pending")
     /\ nt !! "next_due_at" = Some (stamp now))
  /\ (forall (k : tick_times) t0 t5 is fs,
        truthy (get_default t0 "recurring" VNull) = true ->
        truthy (get_default t0 "goal_id" VNull) = false ->
        check_task k t0 = Done (t5, is, fs) ->
        t5 !! "recurring" = Some VNull /\ In (FRemovedRecurring (get_default t0 "id" (VStr "unknown"))) fs).
Proof.
  intros Hf Hr Hp. split.
  - unfold next_recurring. unfold_M. rewrite Hf.
    unfold get_default. rewrite Hr, Hp.
    rewrite bool_decide_eq_true_2 by (eexists; reflexivity). cbn -[insert lookup delete].
    unfold get_item. rewrite !lookup_insert_ne by discriminate. rewrite Hr. cbn -[insert lookup delete].
    do 2 eexists. split; [reflexivity|]. simplify_map_eq. rewrite Z.add_0_r. auto 10.
  - intros k t0 t5 is fs H1 H2 H. unfold check_task in H. rewrite H1, H2 in H.
    cbn [andb negb] in H.
    repeat (norm_lookups H; split_in H).
    all: norm_lookups H; injection H as <- _ <-.
    all: rewrite ?lookup_insert_str; cbn [String.eqb Ascii.eqb Bool.eqb]; split; [reflexivity|left; reflexivity].
Qed.

Lemma next_recurring_null_witness :
  exists t1 nt, run (next_recurring sample_now (sample_store [recurring_task VNull 100]) "task_1" "task_2") =
        ([ESave (mkStore [sample_goal] (app [t1] [nt]));
          EStdout [("success", VBool true); ("completed", task_json t1); ("next", task_json nt)]], Done tt)
     /\ t1 !! "status" = Some (VStr "completed")
     /\ nt !! "id" = Some (VStr "task_2") /\ nt !! "status" = Some (VStr "pending")
     /\ nt !! "next_due_at" = Some (stamp sample_now).
Proof.
  exact (proj1 (next_recurring_null sample_now (sample_store [recurring_task VNull 100]) "task_1" "task_2"
                  0 (recurring_task VNull 100) ltac:(vm_compute; reflexivity)
                  ltac:(vm_compute; reflexivity) ltac:(vm_compute; reflexivity))).
Defined.

(** C2 (code bug). The health check with at least one auto-fix saves the
    store first and appends its HEALTH_CHECK record to the day's WAL only
    afterwards: the trace starts with the store save, immediately followed
    by the WAL append, so no WAL append precedes the save. *)
Theorem health_check_save_then_wal (clk : clock) (now : Z) (data : store) (ts : list task) (is : list issue)
    (fs : list fix_applied) :
  health_loop clk (tasks data) = Done (ts, is, fs) -> fs <> [] ->
  (exists e rest, fst (run (health_check clk now data)) =
     ESave (mkStore (goals data) ts) :: EWal ("WAL-" ++ today now ++ ".log") e :: rest)
  /\ wal_before_save (fst (run (health_check clk now data))) = false.
Proof.
  intros H Hfs. unfold health_check. unfold_M. rewrite H.
  destruct fs as [|f fs]; [congruence|]. cbn -[health_loop today iso]. unfold log_to_wal. unfold_M.
  cbn -[health_loop today iso]. split; [do 2 eexists; reflexivity|reflexivity].
Qed.

Lemma health_check_save_then_wal_witness :
  wal_before_save (fst (run (health_check (ticking_clock sample_now) sample_now (sample_store [task_with "completed" 40])))) = false.
Proof.
  refine (proj2 (health_check_save_then_wal (ticking_clock sample_now) sample_now (sample_store [task_with "completed" 40])
                   _ _ _ _ _)).
  - vm_compute. reflexivity.
  - discriminate.
Defined.

(** C2 counterexample: on a store with one [completed] task at progress 40,
    the health check's first effect is a save of a store different from the
    loaded one, before any WAL append; SetProgress, by contrast, appends to
    the WAL before it saves. *)
Lemma health_check_saves_before_wal :
  saved (firstn 1 (fst (run (health_check (ticking_clock sample_now) sample_now (sample_store [task_with "completed" 40])))))
    <> Some (sample_store [task_with "completed" 40])
  /\ wal_before_save (fst (run (health_check (ticking_clock sample_now) sample_now (sample_store [task_with "completed" 40])))) = false
  /\ wal_before_save (fst (run (mark_progress2 sample_now (sample_store [task_with "pending" 0]) "task_1" 40 ""))) = true.
Proof. vm_compute. split; [discriminate|split; reflexivity]. Qed.

(** C3 (code bug). Phase-1 SetProgress rejects progress < 0 or > 100 with
    exit status 1 and nothing saved, but phase-2 SetProgress has no range
    check: for every out-of-range progress on an existing task it saves the
    task with that progress value. *)
Theorem mark_progress2_unchecked (now : Z) (data : store) (task_id : string) (i : nat) (t : task) (p : Z) :
  find_task_by_id data task_id = Done (Some (i, t)) -> p < 0 \/ 100 < p ->
  run (mark_progress1 now data task_id p) =
    ([EStderr "Progress must be 0-100"], Raised (SystemExit 1))
  /\ exists t', saved (fst (run (mark_progress2 now data task_id p ""))) = Some (set_task data i t')
       /\ t' !! "progress" = Some (VInt p).
Proof.
  intros Hf Hp. split.
  - unfold mark_progress1. unfold_M. rewrite Hf.
    replace ((0 <=? p) && (p <=? 100)) with false
      by (destruct Hp as [Hp|Hp];
          [rewrite (proj2 (Z.leb_gt 0 p) Hp) | rewrite (proj2 (Z.leb_gt p 100) Hp), andb_false_r];
          reflexivity).
    reflexivity.
  - unfold mark_progress2, add_notes, log_to_wal. unfold_M. rewrite Hf. cbn -[insert lookup after_save].
    after_save_tail; eexists; (split; [reflexivity|]);
      repeat match goal with |- context [if ?c then _ else _] => destruct c end;
      rewrite ?lookup_insert_ne by discriminate; apply lookup_insert_eq.
Qed.

Lemma mark_progress2_unchecked_witness :
  run (mark_progress1 sample_now (sample_store [task_with "in_progress" 40]) "task_1" 150) =
    ([EStderr "Progress must be 0-100"], Raised (SystemExit 1)).
Proof.
  exact (proj1 (mark_progress2_unchecked sample_now (sample_store [task_with "in_progress" 40]) "task_1" 0
                  (task_with "in_progress" 40) 150 ltac:(vm_compute; reflexivity) ltac:(lia))).
Defined.

(** C3 counterexample: phase-2 SetProgress(task_1, 150) saves progress 150. *)
Lemma mark_progress2_saves_150 :
  saved_task (fst (run (mark_progress2 sample_now (sample_store [task_with "in_progress" 40]) "task_1" 150 ""))) 0
    ≫= (fun t => t !! "progress") = Some (VInt 150).
Proof. vm_compute. reflexivity. Qed.

(** C6 (code bug). For every parsed blob that is not a mapping with a
    ["tasks"] key, phase-1 [load_data] warns and returns the empty default,
    and both phases return the empty default when the file is absent; but
    phase-2 [load_data] returns the malformed blob unchanged, with no
    warning, and a file that does not parse raises JSONDecodeError. *)
Theorem load_data_malformed (v : value) :
  has_tasks_key v = false ->
  run (load_data1 (BParsed v)) = ([EWarn "tasks.json schema invalid, recovering to empty state"], Done empty_data)
  /\ run (load_data1 BAbsent) = ([], Done empty_data)
  /\ run (load_data2 BAbsent) = ([], Done empty_data)
  /\ run (load_data2 (BParsed v)) = ([], Done v)
  /\ run (load_data2 BUnparseable) = ([], Raised JSONDecodeError).
Proof.
  intros H. unfold load_data1, load_data2. rewrite H. unfold_M. repeat split.
Qed.

Lemma load_data_malformed_witness :
  run (load_data2 (BParsed (VList []))) = ([], Done (VList [])).
Proof. exact (proj1 (proj2 (proj2 (proj2 (load_data_malformed (VList []) eq_refl))))). Defined.

(** C6 counterexample: phase-2 [load_data] on the blob [[]] returns [[]],
    not the empty default, and likewise a mapping without ["tasks"]. *)
Lemma load_data2_returns_malformed :
  run (load_data2 (BParsed (VList []))) <> ([], Done empty_data)
  /\ run (load_data2 (BParsed (VDict [("goals", VList [])]))) = ([], Done (VDict [("goals", VList [])])).
Proof. split; [vm_compute; discriminate|reflexivity]. Qed.

(** C5. The health check is idempotent: if a first pass reading the clock
    [clk1] returns its issues and fixes, a second pass reading [clk2] on the
    store the first one left (the store it saved, or the loaded one when it
    saved nothing) returns an empty fixes list. Each [datetime.now()] call
    of the loop body reads its own instant ([check_task]); the clock
    hypothesis is that every stamp ([isoformat() + "Z"]) taken by the first
    pass does not sort after [isoformat()] at any comparison instant of the
    second pass, which holds when the clock has advanced between the two
    passes. *)
Theorem health_check_idempotent (clk1 clk2 : clock) (now1 now2 : Z) (data : store) (tr1 : list effect)
    (is1 : list issue) (fs1 : list fix_applied) :
  (forall i j, (i < length (tasks data))%nat -> (j < length (tasks data))%nat ->
     before_compare (clk1 i) (at_compare (clk2 j))) ->
  run (health_check clk1 now1 data) = (tr1, Done (is1, fs1)) ->
  exists tr2 is2, run (health_check clk2 now2 (default data (saved tr1))) = (tr2, Done (is2, [])).
Proof.
  intros Hclk H. unfold health_check in H. unfold_M_in H.
  destruct (health_loop clk1 (tasks data)) as [[[ts is] fs]|] eqn:E; [|discriminate H].
  cbn -[health_loop log_to_wal] in H.
  assert (Hd : exists is', health_loop clk2 (tasks (default data (saved tr1))) = Done (tasks (default data (saved tr1)), is', [])).
  { destruct fs as [|f fs]; cbn -[health_loop log_to_wal] in H; unfold log_to_wal in H; unfold_M_in H;
      injection H as <- _ _; cbn.
    - rewrite <- (health_loop_unchanged clk1 _ _ _ E). exact (health_loop_again clk1 clk2 _ _ _ _ Hclk E).
    - exact (health_loop_again clk1 clk2 _ _ _ _ Hclk E). }
  destruct Hd as [is' Hd]. unfold health_check. unfold_M. rewrite Hd.
  cbn -[health_loop log_to_wal]. unfold log_to_wal. unfold_M.
  do 2 eexists. reflexivity.
Qed.

Lemma health_check_idempotent_witness :
  exists tr2 is2,
    run (health_check (ticking_clock (sample_now + 1000000)) (sample_now + 1000009)
           (default (sample_store [task_with "completed" 40])
              (saved (fst (run (health_check (ticking_clock sample_now) (sample_now + 9)
                                  (sample_store [task_with "completed" 40])))))))
    = (tr2, Done (is2, [])).
Proof.
  eapply (health_check_idempotent (ticking_clock sample_now) (ticking_clock (sample_now + 1000000))
            (sample_now + 9) (sample_now + 1000009) (sample_store [task_with "completed" 40])
            (fst (run (health_check (ticking_clock sample_now) (sample_now + 9)
                         (sample_store [task_with "completed" 40]))))).
  - intros i j Hi Hj. cbn in Hi, Hj.
    assert (i = 0%nat) as -> by lia. assert (j = 0%nat) as -> by lia.
    vm_compute. split; [|split]; discriminate.
  - vm_compute. reflexivity.
Defined.

(** C8. For every goal the velocity report finds, with [completed] and
    [remaining] the goal's completed and other tasks: [days_tracked] is the
    number of distinct dates among the [completed_at] values of the
    completed tasks, the velocity is [completed / days] (0 when there is no
    date) rounded to 2 decimals, and the estimated days are
    [remaining / velocity] (0 when the velocity is 0) rounded to 1 decimal.
    With 4 completed tasks over 2 dates and 2 remaining, the velocity is 2.0
    and the estimate 1.0. *)
Theorem velocity_formula :
  (forall (data : store) (goal_id : string) (rep : velocity_report),
    velocity_of data goal_id = Done (Some rep) ->
    exists completed remaining ds,
      filter_tasks (goal_task_with goal_id true) (tasks data) = Done completed
      /\ completion_dates completed = Done ds
      /\ filter_tasks (goal_task_with goal_id false) (tasks data) = Done remaining
      /\ vr_completed rep = length completed /\ vr_remaining rep = length remaining
      /\ vr_days_tracked rep = length (remove_dups ds)
      /\ let velocity := if Nat.eqb (length (remove_dups ds)) 0 then PInt 0
                         else PFloat (q2float (Z.of_nat (length completed))
                                              (Z.of_nat (length (remove_dups ds)))) in
         vr_velocity rep = py_round velocity 2
         /\ vr_estimated_days rep =
              py_round (if py_pos velocity then py_div_by (Z.of_nat (length remaining)) velocity
                        else PInt 0) 1)
  /\ (exists rep, velocity_of velocity_store "goal_1" = Done (Some rep)
        /\ vr_completed rep = 4%nat /\ vr_days_tracked rep = 2%nat /\ vr_remaining rep = 2%nat
        /\ vr_velocity rep = PFloat 2 /\ vr_estimated_days rep = PFloat 1).
Proof.
  split.
  - intros data goal_id rep H. unfold velocity_of in H. cbv [obind mbind outcome_bind] in H.
    destruct (find_goal_from (goals data) (VStr goal_id)) as [[g|]|]; try discriminate H.
    destruct (filter_tasks (goal_task_with goal_id true) (tasks data)) as [completed|]; [|discriminate H].
    destruct (count_by_day ∅ completed) as [by_day|] eqn:Eb; [|discriminate H].
    destruct (filter_tasks (goal_task_with goal_id false) (tasks data)) as [remaining|]; [|discriminate H].
    injection H as <-.
    destruct (size_count_by_day by_day completed Eb) as (ds & Hds & Hsize).
    exists completed, remaining, ds. rewrite <- Hsize. cbn. auto 10.
  - eexists. split; [vm_compute; reflexivity|]. vm_compute. auto 10.
Qed.

Lemma velocity_formula_witness :
  exists rep, velocity_of velocity_store "goal_1" = Done (Some rep)
    /\ exists completed ds, completion_dates completed = Done ds
         /\ vr_days_tracked rep = length (remove_dups ds) /\ vr_completed rep = length completed.
Proof.
  eexists. split; [vm_compute; reflexivity|].
  destruct (proj1 velocity_formula velocity_store "goal_1" _ ltac:(vm_compute; reflexivity))
    as (completed & remaining & ds & _ & Hds & _ & Hc & _ & Hdays & _).
  exists completed, ds. auto.
Defined.

(* ------------------------------------------------------------------ *)
(** ** Lemmas for the additional functions *)

Lemma is_str_true (v : value) (s : string) : is_str v s = true -> v = VStr s.
Proof. destruct v; simpl; try discriminate. intros H. apply String.eqb_eq in H. congruence. Qed.

Lemma is_str_false (v : value) (s : string) : is_str v s = false -> v <> VStr s.
Proof. intros H ->. simpl in H. rewrite String.eqb_refl in H. discriminate. Qed.

(** [find_task_from] scans from index [k]. *)
Lemma find_task_from_spec (ts : list task) (task_id : string) (k : nat) :
  (forall i t, find_task_from k ts task_id = Done (Some (i, t)) ->
     (k <= i)%nat /\ ts !! (i - k)%nat = Some t /\ t !! "id" = Some (VStr task_id)
     /\ forall j t', (j < i - k)%nat -> ts !! j = Some t' -> exists v, t' !! "id" = Some v /\ v <> VStr task_id)
  /\ (find_task_from k ts task_id = Done None ->
       forall t, In t ts -> exists v, t !! "id" = Some v /\ v <> VStr task_id)
  /\ (forall e, find_task_from k ts task_id = Raised e ->
       e = KeyError "id" /\ exists t, In t ts /\ t !! "id" = None).
Proof.
  revert k. induction ts as [|t0 ts IH]; intros k; cbn [find_task_from].
  - split; [intros i t H; discriminate H|]. split; [intros _ t []|intros e H; discriminate H].
  - unfold get_item. destruct (t0 !! "id") as [v|] eqn:Ev; cbn [mbind outcome_bind].
    + destruct (is_str v task_id) eqn:Es.
      * apply is_str_true in Es. subst v.
        split; [|split].
        -- intros i t H. injection H as <- <-. rewrite Nat.sub_diag.
           split; [lia|]. split; [reflexivity|]. split; [exact Ev|]. intros j t' Hj. lia.
        -- intros H. discriminate H.
        -- intros e H. discriminate H.
      * apply is_str_false in Es. destruct (IH (S k)) as (IH1 & IH2 & IH3).
        split; [|split].
        -- intros i t H. destruct (IH1 i t H) as (Hle & Hl & Hid & Hbefore).
           split; [lia|]. replace (i - k)%nat with (S (i - S k)) by lia.
           split; [exact Hl|]. split; [exact Hid|].
           intros [|j] t' Hj Hj'.
           ++ injection Hj' as <-. exists v. split; assumption.
           ++ apply (Hbefore j t'); [lia|exact Hj'].
        -- intros H t [<-|Hin]; [exists v; split; assumption|exact (IH2 H t Hin)].
        -- intros e H. destruct (IH3 e H) as (He & t & Hin & Hn). split; [exact He|].
           exists t. split; [right; exact Hin|exact Hn].
    + split; [intros i t H; discriminate H|]. split; [intros H; discriminate H|].
      intros e H. injection H as <-. split; [reflexivity|]. exists t0. split; [left; reflexivity|exact Ev].
Qed.

(** Writing back the found task with its id unchanged: the search finds it
    at the same index. *)
Lemma find_task_from_insert (ts : list task) (task_id : string) (k i : nat) (t t' : task) :
  find_task_from k ts task_id = Done (Some (i, t)) -> t' !! "id" = t !! "id" ->
  find_task_from k (<[(i - k)%nat := t']> ts) task_id = Done (Some (i, t')).
Proof.
  revert k. induction ts as [|t0 ts IH]; intros k H Hid; cbn [find_task_from] in H; [discriminate H|].
  destruct (get_item t0 "id") as [v|e] eqn:Ev; cbn [mbind outcome_bind] in H; [|discriminate H].
  destruct (is_str v task_id) eqn:Es.
  - injection H as <- <-. rewrite Nat.sub_diag. cbn [find_task_from list_insert insert].
    unfold get_item in *. rewrite Hid, Ev. cbn [mbind outcome_bind]. rewrite Es. reflexivity.
  - pose proof (proj1 (find_task_from_lookup ts task_id (S k) i t H)) as Hle.
    replace (i - k)%nat with (S (i - S k)) by lia. cbn [find_task_from list_insert insert].
    rewrite Ev. cbn [mbind outcome_bind]. rewrite Es. exact (IH (S k) H Hid).
Qed.

Lemma find_task_from_app_some (l1 l2 : list task) (task_id : string) (k : nat) (r : nat * task) :
  find_task_from k l1 task_id = Done (Some r) -> find_task_from k (l1 ++ l2) task_id = Done (Some r).
Proof.
  revert k. induction l1 as [|t0 l1 IH]; intros k H; cbn [find_task_from app] in *; [discriminate H|].
  destruct (get_item t0 "id"); cbn [mbind outcome_bind] in *; [|discriminate H].
  destruct (is_str a task_id); [exact H|exact (IH _ H)].
Qed.

Lemma find_task_from_app_none (l1 l2 : list task) (task_id : string) (k : nat) :
  find_task_from k l1 task_id = Done None ->
  find_task_from k (l1 ++ l2) task_id = find_task_from (k + length l1) l2 task_id.
Proof.
  revert k. induction l1 as [|t0 l1 IH]; intros k H; cbn [find_task_from app length] in *.
  - rewrite Nat.add_0_r. reflexivity.
  - destruct (get_item t0 "id"); cbn [mbind outcome_bind] in *; [|discriminate H].
    destruct (is_str a task_id); [discriminate H|]. rewrite (IH _ H). f_equal. lia.
Qed.

Lemma find_task_set (data : store) (task_id : string) (i : nat) (t t' : task) :
  find_task_by_id data task_id = Done (Some (i, t)) -> t' !! "id" = t !! "id" ->
  find_task_by_id (set_task data i t') task_id = Done (Some (i, t')).
Proof.
  intros H Hid. unfold find_task_by_id, set_task in *. cbn [tasks].
  pose proof (find_task_from_insert _ _ 0 i t t' H Hid) as H'. rewrite Nat.sub_0_r in H'. exact H'.
Qed.

Lemma bind_lift_done {A B} (o : outcome A) (a : A) (k : A -> M B) (tr : list effect) :
  o = Done a -> bind (lift o) k tr = k a tr.
Proof. intros ->. reflexivity. Qed.

(** Computations that only append to the trace. *)
Definition extends {A} (m : M A) : Prop := forall tr, exists ex o, m tr = (app tr ex, o).

Lemma extends_bind {A B} (m : M A) (f : A -> M B) :
  extends m -> (forall a, extends (f a)) -> extends (bind m f).
Proof.
  intros Hm Hf tr. unfold bind. destruct (Hm tr) as (ex & o & ->).
  destruct o as [a|e].
  - destruct (Hf a (app tr ex)) as (ex' & o' & ->). exists (app ex ex'), o'. rewrite app_assoc. reflexivity.
  - exists ex, (Raised e). reflexivity.
Qed.

Lemma extends_ret {A} (a : A) : extends (ret a).
Proof. intros tr. exists [], (Done a). rewrite app_nil_r. reflexivity. Qed.

Lemma extends_raise {A} (e : exc) : extends (@raise A e).
Proof. intros tr. exists [], (Raised e). rewrite app_nil_r. reflexivity. Qed.

Lemma extends_emit (e : effect) : extends (emit e).
Proof. intros tr. exists [e], (Done tt). reflexivity. Qed.

Lemma extends_lift {A} (o : outcome A) : extends (lift o).
Proof. destruct o; [apply extends_ret|apply extends_raise]. Qed.

Ltac ext_solve :=
  repeat first
    [ progress cbv beta iota zeta delta [mbind M_bind mret M_ret fail_exit save_data log_to_wal
                                         after_save update_session_state append_to_buffer add_notes]
    | apply extends_bind; [|intros ?]
    | apply extends_emit | apply extends_lift | apply extends_ret | apply extends_raise
    | match goal with |- extends (match ?x with _ => _ end) => destruct x end ].

Lemma extends_first {A} (e : effect) (k : unit -> M A) :
  (forall u, extends (k u)) -> exists rest, fst (bind (emit e) k []) = e :: rest.
Proof.
  intros H. unfold bind, emit. cbn [app]. destruct (H tt [e]) as (ex & o & ->). exists ex. reflexivity.
Qed.

(* ------------------------------------------------------------------ *)
(** ** Lookup, missing tasks and the WAL *)

(** X1. [find_task_by_id] returns the first task whose id matches; [None] means no task has that id; it raises [KeyError 'id'] only when some task has no id. *)
Theorem find_task_by_id_first_match (data : store) (task_id : string) :
  (forall i t, find_task_by_id data task_id = Done (Some (i, t)) ->
     tasks data !! i = Some t /\ t !! "id" = Some (VStr task_id)
     /\ forall j t', (j < i)%nat -> tasks data !! j = Some t' ->
          exists v, t' !! "id" = Some v /\ v <> VStr task_id)
  /\ (find_task_by_id data task_id = Done None ->
       forall t, In t (tasks data) -> exists v, t !! "id" = Some v /\ v <> VStr task_id)
  /\ (forall e, find_task_by_id data task_id = Raised e ->
       e = KeyError "id" /\ exists t, In t (tasks data) /\ t !! "id" = None).
Proof.
  unfold find_task_by_id. destruct (find_task_from_spec (tasks data) task_id 0) as (H1 & H2 & H3).
  split; [|split; [exact H2|exact H3]].
  intros i t H. destruct (H1 i t H) as (_ & Hl & Hid & Hb). rewrite Nat.sub_0_r in Hl, Hb.
  split; [exact Hl|]. split; [exact Hid|exact Hb].
Qed.

Lemma find_task_by_id_first_match_witness :
  find_task_by_id (sample_store [<["id" := VStr "task_0"]> (task_with "pending" 0); task_with "pending" 0;
                                 task_with "completed" 100]) "task_1"
    = Done (Some (1%nat, task_with "pending" 0))
  /\ exists v, (<["id" := VStr "task_0"]> (task_with "pending" 0)) !! "id" = Some v /\ v <> VStr "task_1".
Proof.
  split; [reflexivity|].
  refine (proj2 (proj2 (proj1 (find_task_by_id_first_match
            (sample_store [<["id" := VStr "task_0"]> (task_with "pending" 0); task_with "pending" 0;
                           task_with "completed" 100]) "task_1") 1%nat (task_with "pending" 0) _)) 0%nat _ _ _).
  - reflexivity.
  - lia.
  - reflexivity.
Defined.

(** X2. When no task has the given id, phase-1 [mark_progress], [mark_blocked], [unblock_task] and [next_recurring] and phase-2 [mark_progress], [log_time] and [mark_blocked] print 'Task not found', write nothing and exit with code 1 (phase-1 [log_time] is not covered). *)
Theorem task_not_found_exits (now : Z) (data : store) (task_id reason new_id notes : string) (p : Z) :
  find_task_by_id data task_id = Done None ->
  run (mark_progress1 now data task_id p) = ([EStderr ("Task not found: " ++ task_id)], Raised (SystemExit 1))
  /\ run (mark_blocked1 now data task_id reason) = ([EStderr ("Task not found: " ++ task_id)], Raised (SystemExit 1))
  /\ run (unblock_task1 now data task_id) = ([EStderr ("Task not found: " ++ task_id)], Raised (SystemExit 1))
  /\ run (next_recurring now data task_id new_id) = ([EStderr ("Task not found: " ++ task_id)], Raised (SystemExit 1))
  /\ run (mark_progress2 now data task_id p notes) = ([EStderr ("Task not found: " ++ task_id)], Raised (SystemExit 1))
  /\ run (log_time2 now data task_id p notes) = ([EStderr ("Task not found: " ++ task_id)], Raised (SystemExit 1))
  /\ run (mark_blocked2 now data task_id reason) = ([EStderr ("Task not found: " ++ task_id)], Raised (SystemExit 1)).
Proof.
  intros H. unfold run, mark_progress1, mark_blocked1, unblock_task1, next_recurring, mark_progress2,
    log_time2, mark_blocked2.
  rewrite !(bind_lift_done _ _ _ [] H). repeat split.
Qed.

Lemma task_not_found_exits_witness :
  run (mark_progress2 sample_now (sample_store [task_with "pending" 0]) "task_9" 40 "") =
    ([EStderr ("Task not found: " ++ "task_9")], Raised (SystemExit 1)).
Proof.
  exact (proj1 (proj2 (proj2 (proj2 (proj2 (task_not_found_exits sample_now (sample_store [task_with "pending" 0])
           "task_9" "r" "task_2" "" 40 ltac:(reflexivity))))))).
Defined.

(** X3. In phase 2, [mark_progress], [log_time] and [mark_blocked] write their WAL entry first, before any other effect. *)
Theorem phase2_wal_first (now : Z) (data : store) (task_id : string) (i : nat) (t : task) :
  find_task_by_id data task_id = Done (Some (i, t)) ->
  (forall p notes, exists rest, fst (run (mark_progress2 now data task_id p notes)) =
     EWal ("WAL-" ++ today now ++ ".log")
       (mkWal (iso now) "PROGRESS_CHANGE"
          [("task_id", VStr task_id); ("old_progress", get_default t "progress" (VInt 0));
           ("new_progress", VInt p); ("timestamp", VStr (iso now))]) :: rest)
  /\ (forall m notes new_actual, py_add (get_default t "actual_minutes" (VInt 0)) (VInt m) = Done new_actual ->
     exists rest, fst (run (log_time2 now data task_id m notes)) =
     EWal ("WAL-" ++ today now ++ ".log")
       (mkWal (iso now) "TIME_LOG"
          [("task_id", VStr task_id); ("minutes_logged", VInt m);
           ("old_total", get_default t "actual_minutes" (VInt 0)); ("new_total", new_actual);
           ("timestamp", VStr (iso now))]) :: rest)
  /\ (forall reason, exists rest, fst (run (mark_blocked2 now data task_id reason)) =
     EWal ("WAL-" ++ today now ++ ".log")
       (mkWal (iso now) "STATUS_CHANGE"
          [("task_id", VStr task_id); ("old_status", get_default t "status" (VStr "pending"));
           ("new_status", VStr "blocked"); ("reason", VStr reason); ("timestamp", VStr (iso now))]) :: rest).
Proof.
  intros Hf. split; [|split].
  - intros p notes. unfold run, mark_progress2. rewrite (bind_lift_done _ _ _ [] Hf).
    cbv beta iota zeta delta [mbind M_bind log_to_wal].
    apply extends_first. intros u. ext_solve.
  - intros m notes new_actual Ha. unfold run, log_time2. rewrite (bind_lift_done _ _ _ [] Hf).
    cbv beta iota zeta delta [mbind M_bind]. rewrite (bind_lift_done _ _ _ [] Ha).
    cbv beta iota zeta delta [log_to_wal].
    apply extends_first. intros u. ext_solve.
  - intros reason. unfold run, mark_blocked2. rewrite (bind_lift_done _ _ _ [] Hf).
    cbv beta iota zeta delta [mbind M_bind log_to_wal].
    apply extends_first. intros u. ext_solve.
Qed.

Lemma phase2_wal_first_witness :
  exists rest, fst (run (mark_progress2 sample_now (sample_store [task_with "pending" 0]) "task_1" 40 "")) =
     EWal ("WAL-" ++ today sample_now ++ ".log")
       (mkWal (iso sample_now) "PROGRESS_CHANGE"
          [("task_id", VStr "task_1"); ("old_progress", get_default (task_with "pending" 0) "progress" (VInt 0));
           ("new_progress", VInt 40); ("timestamp", VStr (iso sample_now))]) :: rest.
Proof.
  exact (proj1 (phase2_wal_first sample_now (sample_store [task_with "pending" 0]) "task_1" 0
                  (task_with "pending" 0) ltac:(reflexivity)) 40 "").
Defined.

(* ------------------------------------------------------------------ *)
(** ** Progress, blocking and time logging *)

Lemma set_task_set_task (data : store) (i : nat) (t t' : task) :
  set_task (set_task data i t) i t' = set_task data i t'.
Proof. unfold set_task. cbn [goals tasks]. rewrite list_insert_insert_eq. reflexivity. Qed.

Lemma notes_addable_insert (k : string) (v : value) (t : task) (notes : string) :
  k <> "notes" -> notes_addable (<[k := v]> t) notes <-> notes_addable t notes.
Proof.
  intros Hk. unfold notes_addable, get_default. rewrite lookup_insert_ne by congruence. reflexivity.
Qed.

Lemma add_notes_frame (t : task) (notes : string) :
  notes_addable t notes ->
  exists t', add_notes t notes = mret t' /\ forall k, k <> "notes" -> t' !! k = t !! k.
Proof.
  intros H. unfold add_notes. destruct (String.eqb_spec notes "") as [->|Hn].
  - exists t. split; [reflexivity|auto].
  - destruct (truthy (get_default t "notes" VNull)) eqn:Et.
    + destruct H as [H|[H|[[s Hs]|[l Hl]]]]; [congruence|congruence|rewrite Hs|rewrite Hl];
        (eexists; split; [reflexivity|intros k Hk; apply lookup_insert_ne; congruence]).
    + eexists; split; [reflexivity|intros k Hk; apply lookup_insert_ne; congruence].
Qed.

Lemma add_notes_raise (t : task) (notes : string) :
  ~ notes_addable t notes -> add_notes t notes = raise TypeError.
Proof.
  intros H. unfold add_notes. destruct (String.eqb_spec notes "") as [->|Hn].
  - exfalso. apply H. left. reflexivity.
  - destruct (truthy (get_default t "notes" VNull)) eqn:Et.
    + destruct (t !! "notes") as [[]|] eqn:En; try reflexivity; exfalso; apply H.
      * right; right; left. eexists; exact En.
      * right; right; right. eexists; exact En.
    + exfalso. apply H. right. left. exact Et.
Qed.

(** X4. Phase-2 [mark_progress], with any notes it can add, keeps a completed task completed at any progress, and moves a blocked task at 100 or more to in_progress without clearing its blocked reason; with notes it cannot add (existing notes neither falsy, a string nor a list), it raises TypeError after the WAL entry and saves nothing. *)
Theorem mark_progress2_status_quirks (now : Z) (data : store) (task_id : string) (i : nat) (t : task) (p : Z)
    (notes : string) :
  find_task_by_id data task_id = Done (Some (i, t)) ->
  (notes_addable t notes -> t !! "status" = Some (VStr "completed") ->
     exists t', saved (fst (run (mark_progress2 now data task_id p notes))) = Some (set_task data i t')
     /\ t' !! "status" = Some (VStr "completed") /\ t' !! "progress" = Some (VInt p))
  /\ (notes_addable t notes -> 100 <= p -> t !! "status" = Some (VStr "blocked") ->
     exists t', saved (fst (run (mark_progress2 now data task_id p notes))) = Some (set_task data i t')
     /\ t' !! "status" = Some (VStr "in_progress") /\ t' !! "blocked_reason" = t !! "blocked_reason")
  /\ (~ notes_addable t notes ->
     saved (fst (run (mark_progress2 now data task_id p notes))) = None
     /\ snd (run (mark_progress2 now data task_id p notes)) = Raised TypeError).
Proof.
  intros Hf.
  set (t1 := <["updated_at" := stamp now]> (<["progress" := VInt p]> t)).
  assert (Ha : notes_addable t1 notes <-> notes_addable t notes)
    by (unfold t1; rewrite !notes_addable_insert by discriminate; reflexivity).
  split; [|split].
  - intros Hn Hs. apply Ha in Hn. destruct (add_notes_frame t1 notes Hn) as (t2 & Ht2 & Hfr).
    unfold mark_progress2, log_to_wal. unfold_M. rewrite Hf. cbn -[insert lookup after_save iso today stamp add_notes].
    fold t1. rewrite Ht2. cbn -[insert lookup after_save iso today stamp].
    unfold get_default. rewrite (Hfr "status") by discriminate. unfold t1.
    rewrite !lookup_insert_ne by discriminate. rewrite Hs.
    cbn -[insert lookup after_save iso today stamp]. rewrite !andb_false_r. cbn -[insert lookup after_save iso today stamp].
    after_save_tail; eexists; (split; [reflexivity|]);
      rewrite !Hfr by discriminate; unfold t1; simplify_map_eq; auto.
  - intros Hn Hp Hs. apply Ha in Hn. destruct (add_notes_frame t1 notes Hn) as (t2 & Ht2 & Hfr).
    unfold mark_progress2, log_to_wal. unfold_M. rewrite Hf. cbn -[insert lookup after_save iso today stamp add_notes].
    fold t1. rewrite Ht2. cbn -[insert lookup after_save iso today stamp].
    unfold get_default. rewrite (Hfr "status") by discriminate. unfold t1.
    rewrite !lookup_insert_ne by discriminate. rewrite Hs.
    replace (100 <=? p) with true by (symmetry; apply Z.leb_le; exact Hp).
    cbn -[insert lookup after_save iso today stamp].
    after_save_tail; eexists; (split; [reflexivity|]);
      (split; [apply lookup_insert_eq|]); rewrite lookup_insert_ne by discriminate;
      rewrite Hfr by discriminate; unfold t1; simplify_map_eq; reflexivity.
  - intros Hn. rewrite <- Ha in Hn. pose proof (add_notes_raise t1 notes Hn) as Ht2.
    unfold mark_progress2, log_to_wal. unfold_M. rewrite Hf. cbn -[insert lookup after_save iso today stamp add_notes].
    fold t1. rewrite Ht2. split; reflexivity.
Qed.

(** X5. Phase-2 [mark_progress] with non-empty notes appends them after a newline to existing notes, or sets them when the task has no notes or empty notes. *)
Theorem mark_progress2_notes (now : Z) (data : store) (task_id : string) (i : nat) (t : task) (p : Z)
    (notes : string) :
  find_task_by_id data task_id = Done (Some (i, t)) -> notes <> "" ->
  (forall s, t !! "notes" = Some (VStr s) ->
     exists t', saved (fst (run (mark_progress2 now data task_id p notes))) = Some (set_task data i t')
     /\ t' !! "notes" = Some (VStr (if String.eqb s "" then notes else s ++ newline ++ notes)))
  /\ (t !! "notes" = None ->
     exists t', saved (fst (run (mark_progress2 now data task_id p notes))) = Some (set_task data i t')
     /\ t' !! "notes" = Some (VStr notes)).
Proof.
  intros Hf Hn. apply String.eqb_neq in Hn. split.
  - intros s Hs. unfold mark_progress2, add_notes, log_to_wal. unfold_M. rewrite Hf.
    cbn -[insert lookup after_save iso today stamp]. rewrite Hn.
    unfold get_default. rewrite !lookup_insert_ne by discriminate. rewrite Hs.
    cbn -[insert lookup after_save iso today stamp].
    destruct (String.eqb s "") eqn:Es; cbn -[insert lookup after_save iso today stamp];
      after_save_tail; eexists; (split; [reflexivity|]);
      repeat match goal with |- context [if ?c then _ else _] => destruct c end;
      rewrite ?lookup_insert_ne by discriminate; apply lookup_insert_eq.
  - intros Hs. unfold mark_progress2, add_notes, log_to_wal. unfold_M. rewrite Hf.
    cbn -[insert lookup after_save iso today stamp]. rewrite Hn.
    unfold get_default. rewrite !lookup_insert_ne by discriminate. rewrite Hs.
    cbn -[insert lookup after_save iso today stamp].
    after_save_tail; eexists; (split; [reflexivity|]);
      repeat match goal with |- context [if ?c then _ else _] => destruct c end;
      rewrite ?lookup_insert_ne by discriminate; apply lookup_insert_eq.
Qed.

(** X6. Phase-1 [mark_progress] on a task that is neither pending nor in_progress, with progress in [0, 100], changes only progress and updated_at. *)
Theorem mark_progress1_other_status (now : Z) (data : store) (task_id : string) (i : nat) (t : task)
    (p : Z) (s : string) :
  find_task_by_id data task_id = Done (Some (i, t)) ->
  t !! "status" = Some (VStr s) -> s <> "pending" -> s <> "in_progress" -> 0 <= p <= 100 ->
  run (mark_progress1 now data task_id p) =
    ([ESave (set_task data i (<["updated_at" := stamp now]> (<["progress" := VInt p]> t)));
      EStdout [("success", VBool true); ("task", task_json (<["updated_at" := stamp now]> (<["progress" := VInt p]> t)))]],
     Done tt).
Proof.
  intros Hf Hs H1 H2 Hp. unfold mark_progress1. unfold_M. rewrite Hf.
  replace ((0 <=? p) && (p <=? 100)) with true
    by (symmetry; apply andb_true_iff; split; apply Z.leb_le; lia).
  apply String.eqb_neq in H1, H2.
  cbn -[insert lookup iso today stamp].
  destruct (p =? 100); destruct (0 <? p); cbn -[insert lookup iso today stamp];
    unfold get_item; rewrite ?lookup_insert_ne by discriminate; rewrite ?Hs; cbn -[insert lookup iso today stamp];
    rewrite ?H1, ?H2; reflexivity.
Qed.

(** X7. Blocking and then unblocking a task leaves it pending with a null blocked reason; only status, blocked_reason and updated_at differ from the original. *)
Theorem block_then_unblock (now1 now2 : Z) (data : store) (task_id reason : string) (i : nat) (t : task) :
  find_task_by_id data task_id = Done (Some (i, t)) ->
  exists d1 t2, saved (fst (run (mark_blocked1 now1 data task_id reason))) = Some d1
   /\ run (unblock_task1 now2 d1 task_id) =
        ([ESave (set_task data i t2); EStdout [("success", VBool true); ("task", task_json t2)]], Done tt)
   /\ t2 !! "status" = Some (VStr "pending") /\ t2 !! "blocked_reason" = Some VNull
   /\ t2 !! "updated_at" = Some (stamp now2)
   /\ forall k, k <> "status" -> k <> "blocked_reason" -> k <> "updated_at" -> t2 !! k = t !! k.
Proof.
  intros Hf.
  set (t1 := <["updated_at" := stamp now1]>
               (<["blocked_reason" := VStr reason]> (<["status" := VStr "blocked"]> t))).
  assert (Hf1 : find_task_by_id (set_task data i t1) task_id = Done (Some (i, t1))).
  { apply (find_task_set data task_id i t t1 Hf). unfold t1. rewrite !lookup_insert_ne by discriminate. reflexivity. }
  exists (set_task data i t1),
    (<["updated_at" := stamp now2]> (<["blocked_reason" := VNull]> (<["status" := VStr "pending"]> t1))).
  split; [unfold mark_blocked1; unfold_M; rewrite Hf; reflexivity|].
  split; [unfold unblock_task1; unfold_M; rewrite Hf1; rewrite set_task_set_task; reflexivity|].
  split; [simplify_map_eq; reflexivity|]. split; [simplify_map_eq; reflexivity|].
  split; [simplify_map_eq; reflexivity|].
  intros k Ha Hb Hc. unfold t1. rewrite !lookup_insert_ne by congruence. reflexivity.
Qed.

Ltac tail_done :=
  repeat match goal with
         | |- context [match ?o with Done _ => _ | Raised _ => _ end] => destruct o
         | |- context [if ?b then _ else _] => destruct b
         end;
  cbn [fst snd]; rewrite ?saved_app; repeat match goal with H : saved _ = None |- _ => rewrite H end;
  cbn [saved].

(** X8. Phase-2 [log_time], with any notes it can add, adds the minutes to actual_minutes; a pending task becomes in_progress when the new total is positive; any other status is kept; with notes it cannot add, it raises TypeError after the WAL entry and saves nothing. *)
Theorem log_time2_adds (now : Z) (data : store) (task_id : string) (i : nat) (t : task) (m a : Z)
    (notes : string) :
  find_task_by_id data task_id = Done (Some (i, t)) ->
  get_default t "actual_minutes" (VInt 0) = VInt a ->
  (notes_addable t notes ->
   exists t', saved (fst (run (log_time2 now data task_id m notes))) = Some (set_task data i t')
    /\ t' !! "actual_minutes" = Some (VInt (a + m))
    /\ (t !! "status" = Some (VStr "pending") ->
          t' !! "status" = Some (VStr (if 0 <? a + m then "in_progress" else "pending")))
    /\ (t !! "status" <> Some (VStr "pending") -> t' !! "status" = t !! "status"))
  /\ (~ notes_addable t notes ->
      saved (fst (run (log_time2 now data task_id m notes))) = None
      /\ snd (run (log_time2 now data task_id m notes)) = Raised TypeError).
Proof.
  intros Hf Ha.
  set (t1 := <["updated_at" := stamp now]> (<["actual_minutes" := VInt (a + m)]> t)).
  assert (Hn1 : notes_addable t1 notes <-> notes_addable t notes)
    by (unfold t1; rewrite !notes_addable_insert by discriminate; reflexivity).
  split.
  - intros Hn. apply Hn1 in Hn. destruct (add_notes_frame t1 notes Hn) as (t2 & Ht2 & Hfr).
    assert (Hst : t2 !! "status" = t !! "status")
      by (rewrite Hfr by discriminate; unfold t1; simplify_map_eq; reflexivity).
    assert (Hact : t2 !! "actual_minutes" = Some (VInt (a + m)))
      by (rewrite Hfr by discriminate; unfold t1; simplify_map_eq; reflexivity).
    unfold log_time2, log_to_wal. unfold_M. rewrite Hf.
    cbn -[insert lookup after_save get_default iso today stamp add_notes]. rewrite Ha.
    cbn -[insert lookup after_save get_default iso today stamp add_notes].
    fold t1. rewrite Ht2. cbn -[insert lookup after_save get_default iso today stamp].
    unfold get_default at 1. rewrite Hst.
    destruct (t !! "status") as [st|] eqn:Hs0.
    + destruct (is_str st "pending") eqn:Ep.
      * apply is_str_true in Ep. subst st. cbn -[insert lookup after_save get_default iso today stamp].
        destruct (0 <? a + m) eqn:Eam; cbn -[insert lookup after_save get_default iso today stamp];
          after_save_tail; tail_done; eexists; (split; [reflexivity|]);
          (split; [|split]; [|intros ?|intros ?]);
          rewrite ?lookup_insert_ne by discriminate; rewrite ?lookup_insert_eq, ?Hact, ?Hst;
          try reflexivity; congruence.
      * cbn -[insert lookup after_save get_default iso today stamp].
        after_save_tail; tail_done; eexists; (split; [reflexivity|]);
          (split; [|split]; [|intros ?|intros ?]);
          rewrite ?lookup_insert_ne by discriminate; rewrite ?lookup_insert_eq, ?Hact, ?Hst;
          try reflexivity; try congruence.
        all: match goal with H : Some _ = Some (VStr "pending") |- _ => injection H as -> end.
        all: cbn in Ep; discriminate Ep.
    + cbn -[insert lookup after_save get_default iso today stamp].
      after_save_tail; tail_done; eexists; (split; [reflexivity|]);
        (split; [|split]; [|intros ?|intros ?]);
        rewrite ?lookup_insert_ne by discriminate; rewrite ?lookup_insert_eq, ?Hact, ?Hst;
        try reflexivity; congruence.
  - intros Hn. rewrite <- Hn1 in Hn. pose proof (add_notes_raise t1 notes Hn) as Ht2.
    unfold log_time2, log_to_wal. unfold_M. rewrite Hf.
    cbn -[insert lookup after_save get_default iso today stamp add_notes]. rewrite Ha.
    cbn -[insert lookup after_save get_default iso today stamp add_notes].
    fold t1. rewrite Ht2. split; reflexivity.
Qed.

(* ------------------------------------------------------------------ *)
(** ** Recurring tasks and velocity *)

(** An accepted [next_recurring] run, with the completed task and the
    successor as the code builds them. *)
Lemma next_recurring_accept (now : Z) (data : store) (task_id new_id : string) (i : nat) (t : task)
    (r : value) (p : Z) :
  find_task_by_id data task_id = Done (Some (i, t)) ->
  t !! "recurring" = Some r -> r <> VStr "none" -> t !! "progress" = Some (VInt p) -> 100 <= p ->
  let t1 := <["progress" := VInt 100]> (<["completed_at" := stamp now]> (<["status" := VStr "completed"]> t)) in
  let nt := fold_left (fun t k => delete k t)
              ["completed_at"; "last_error"; "retry_count"; "blocked_reason"]
              (<["next_due_at" := stamp (now + recurrence_delta r)]>
                (<["actual_minutes" := VInt 0]> (<["created_at" := stamp now]>
                (<["progress" := VInt 0]> (<["status" := VStr "pending"]> (<["id" := VStr new_id]> t1)))))) in
  run (next_recurring now data task_id new_id) =
    ([ESave (mkStore (goals data) (app (<[i := t1]> (tasks data)) [nt]));
      EStdout [("success", VBool true); ("completed", task_json t1); ("next", task_json nt)]], Done tt).
Proof.
  intros Hf Hr Hn Hp Hle t1 nt. unfold next_recurring. unfold_M. rewrite Hf.
  unfold get_default. rewrite Hr, Hp, (is_str_ne r "none" Hn).
  rewrite bool_decide_eq_true_2 by (eexists; reflexivity). cbn -[insert lookup delete iso stamp].
  replace (p <? 100) with false by (symmetry; apply Z.ltb_ge; exact Hle).
  cbn -[insert lookup delete iso stamp].
  unfold get_item. rewrite !lookup_insert_ne by discriminate. rewrite Hr.
  reflexivity.
Qed.

(** X9. [next_recurring] refuses a task with no recurrence or recurrence 'none': it prints 'Task is not recurring' and exits with code 1. *)
Theorem next_recurring_not_recurring (now : Z) (data : store) (task_id new_id : string) (i : nat) (t : task) :
  find_task_by_id data task_id = Done (Some (i, t)) ->
  t !! "recurring" = None \/ t !! "recurring" = Some (VStr "none") ->
  run (next_recurring now data task_id new_id) = ([EStderr "Task is not recurring"], Raised (SystemExit 1)).
Proof.
  intros Hf Hr. unfold next_recurring. unfold_M. rewrite Hf. unfold get_default.
  destruct Hr as [Hr|Hr]; rewrite Hr; reflexivity.
Qed.

(** X10. An accepted [next_recurring] saves the old task completed and appends a successor; the successor copies every other field, drops the completion fields, and is created now with the same recurrence. *)
Theorem next_recurring_successor_copy (now : Z) (data : store) (task_id new_id : string) (i : nat)
    (t : task) (r : value) (p : Z) :
  find_task_by_id data task_id = Done (Some (i, t)) ->
  t !! "recurring" = Some r -> r <> VStr "none" -> t !! "progress" = Some (VInt p) -> 100 <= p ->
  exists nt, saved (fst (run (next_recurring now data task_id new_id))) =
      Some (mkStore (goals data)
              (app (<[i := <["progress" := VInt 100]> (<["completed_at" := stamp now]>
                             (<["status" := VStr "completed"]> t))]> (tasks data)) [nt]))
    /\ (forall k, ~ In k ["id"; "status"; "progress"; "created_at"; "actual_minutes"; "next_due_at";
                         "completed_at"; "last_error"; "retry_count"; "blocked_reason"] ->
                  nt !! k = t !! k)
    /\ nt !! "completed_at" = None /\ nt !! "last_error" = None /\ nt !! "retry_count" = None
    /\ nt !! "blocked_reason" = None /\ nt !! "created_at" = Some (stamp now)
    /\ nt !! "recurring" = Some r.
Proof.
  intros Hf Hr Hn Hp Hle. rewrite (next_recurring_accept now data task_id new_id i t r p Hf Hr Hn Hp Hle).
  eexists. split; [reflexivity|]. cbn [fold_left].
  split.
  { intros k Hk. cbn [In] in Hk.
    rewrite !lookup_delete_ne, !lookup_insert_ne by (intros Heq; subst; tauto). reflexivity. }
  repeat split; simplify_map_eq; first [reflexivity | exact Hr].
Qed.

(** X11. [next_recurring] can be run twice on the same task: the list grows by two, the second successor is pending with the second id, and the task's completed_at is the second run's stamp. *)
Theorem next_recurring_repeatable (now now' : Z) (data : store) (task_id id1 id2 : string) (i : nat)
    (t : task) (r : value) (p : Z) :
  find_task_by_id data task_id = Done (Some (i, t)) ->
  t !! "recurring" = Some r -> r <> VStr "none" -> t !! "progress" = Some (VInt p) -> 100 <= p ->
  exists d1 d2, saved (fst (run (next_recurring now data task_id id1))) = Some d1
    /\ saved (fst (run (next_recurring now' d1 task_id id2))) = Some d2
    /\ length (tasks d2) = (length (tasks data) + 2)%nat
    /\ (exists nt, tasks d2 !! S (length (tasks data)) = Some nt
          /\ nt !! "id" = Some (VStr id2) /\ nt !! "status" = Some (VStr "pending"))
    /\ (exists t2, tasks d2 !! i = Some t2
          /\ t2 !! "status" = Some (VStr "completed") /\ t2 !! "completed_at" = Some (stamp now')).
Proof.
  intros Hf Hr Hn Hp Hle.
  pose proof (find_task_lookup data task_id i t Hf) as Hi.
  assert (Hil : (i < length (tasks data))%nat) by (apply lookup_lt_Some in Hi; exact Hi).
  rewrite (next_recurring_accept now data task_id id1 i t r p Hf Hr Hn Hp Hle).
  set (t1 := <["progress" := VInt 100]> (<["completed_at" := stamp now]> (<["status" := VStr "completed"]> t))).
  match goal with |- context [ESave (mkStore (goals data) (app (<[i := t1]> (tasks data)) [?nt]))] =>
    set (nt1 := nt) end.
  set (d1 := mkStore (goals data) (app (<[i := t1]> (tasks data)) [nt1])).
  assert (Hf1 : find_task_by_id d1 task_id = Done (Some (i, t1))).
  { unfold find_task_by_id, d1. cbn [tasks]. apply find_task_from_app_some.
    unfold find_task_by_id in Hf. pose proof (find_task_from_insert _ _ 0 i t t1 Hf) as H.
    rewrite Nat.sub_0_r in H. apply H. unfold t1. rewrite !lookup_insert_ne by discriminate. reflexivity. }
  assert (Hr1 : t1 !! "recurring" = Some r) by (unfold t1; rewrite !lookup_insert_ne by discriminate; exact Hr).
  assert (Hp1 : t1 !! "progress" = Some (VInt 100)) by (unfold t1; apply lookup_insert_eq).
  exists d1. eexists. split; [reflexivity|].
  rewrite (next_recurring_accept now' d1 task_id id2 i t1 r 100 Hf1 Hr1 Hn Hp1 ltac:(lia)).
  split; [reflexivity|].
  unfold d1. cbn [tasks goals].
  assert (Hlen : length (<[i:=t1]> (tasks data) ++ [nt1]) = S (length (tasks data)))
    by (rewrite length_app, length_insert; cbn [length]; lia).
  split; [rewrite length_app, length_insert, Hlen; cbn [length]; lia|].
  split.
  - eexists. split; [|split].
    + rewrite lookup_app_r; rewrite length_insert, Hlen; [|lia].
      rewrite Nat.sub_diag. reflexivity.
    + cbn [fold_left]. simplify_map_eq. reflexivity.
    + cbn [fold_left]. simplify_map_eq. reflexivity.
  - eexists. split; [|split].
    + rewrite lookup_app_l by (rewrite length_insert, Hlen; lia).
      apply list_lookup_insert_eq. rewrite Hlen. lia.
    + simplify_map_eq. reflexivity.
    + simplify_map_eq. reflexivity.
Qed.

Section RecurringInt.
Variable py_int : string -> outcome Z.

(** X12. [create_recurring] for an existing goal appends one pending task with the given fields and medium priority by default; [next_recurring] refuses that new task because it is not 100% complete. *)
Theorem create_recurring_appends (now now' : Z) (data : store) (goal_id title recurring new_id id2 : string)
    (priority : option string) (g : task) :
  find_goal_from (goals data) (VStr goal_id) = Done (Some g) ->
  find_task_by_id data new_id = Done None -> recurring <> "none" ->
  exists nt, run (create_recurring py_int now data goal_id title priority recurring None new_id) =
      ([ESave (mkStore (goals data) (app (tasks data) [nt]));
        EStdout [("success", VBool true); ("task", task_json nt)]], Done tt)
    /\ nt !! "id" = Some (VStr new_id) /\ nt !! "goal_id" = Some (VStr goal_id)
    /\ nt !! "title" = Some (VStr title)
    /\ nt !! "status" = Some (VStr "pending") /\ nt !! "progress" = Some (VInt 0)
    /\ nt !! "recurring" = Some (VStr recurring)
    /\ nt !! "next_due_at" = Some (stamp now) /\ nt !! "created_at" = Some (stamp now)
    /\ (priority = None -> nt !! "priority" = Some (VStr "medium"))
    /\ nt !! "estimate_minutes" = None
    /\ run (next_recurring now' (mkStore (goals data) (app (tasks data) [nt])) new_id id2) =
         ([EStderr "Task must be 100% complete before creating next occurrence"], Raised (SystemExit 1)).
Proof.
  intros Hg Hnew Hrec. unfold create_recurring. unfold_M. rewrite Hg. cbn -[insert lookup iso stamp].
  eexists. split; [reflexivity|].
  do 8 (split; [simplify_map_eq; reflexivity|]).
  split; [intros ->; simplify_map_eq; reflexivity|].
  split; [simplify_map_eq; reflexivity|].
  unfold next_recurring. unfold_M.
  unfold find_task_by_id in *. cbn [tasks]. rewrite (find_task_from_app_none _ _ _ _ Hnew).
  cbn [find_task_from]. unfold get_item at 1. simplify_map_eq. cbn -[insert lookup iso stamp].
  rewrite String.eqb_refl. cbn -[insert lookup iso stamp].
  unfold get_default. simplify_map_eq.
  rewrite (proj2 (String.eqb_neq recurring "none") Hrec). cbn -[insert lookup iso stamp].
  reflexivity.
Qed.

(** X13. [create_recurring] exits with 'Goal not found' for a missing goal; a non-empty estimate is parsed with int(); an empty estimate leaves estimate_minutes unset. *)
Theorem create_recurring_goal_and_estimate (now : Z) (data : store) (goal_id title recurring new_id : string)
    (priority : option string) :
  (find_goal_from (goals data) (VStr goal_id) = Done None ->
     forall estimate, run (create_recurring py_int now data goal_id title priority recurring estimate new_id) =
       ([EStderr ("Goal not found: " ++ goal_id)], Raised (SystemExit 1)))
  /\ (forall g e n, find_goal_from (goals data) (VStr goal_id) = Done (Some g) -> e <> "" -> py_int e = Done n ->
       exists nt, saved (fst (run (create_recurring py_int now data goal_id title priority recurring (Some e) new_id)))
                    = Some (mkStore (goals data) (app (tasks data) [nt]))
         /\ nt !! "estimate_minutes" = Some (VInt n))
  /\ (forall g, find_goal_from (goals data) (VStr goal_id) = Done (Some g) ->
       exists nt, saved (fst (run (create_recurring py_int now data goal_id title priority recurring (Some "") new_id)))
                    = Some (mkStore (goals data) (app (tasks data) [nt]))
         /\ nt !! "estimate_minutes" = None).
Proof.
  split; [|split].
  - intros Hg estimate. unfold create_recurring. unfold_M. rewrite Hg. reflexivity.
  - intros g e n Hg He Hn. apply String.eqb_neq in He.
    unfold create_recurring. unfold_M. rewrite Hg. cbn -[insert lookup iso stamp].
    rewrite He, Hn. cbn -[insert lookup iso stamp].
    eexists. split; [reflexivity|]. apply lookup_insert_eq.
  - intros g Hg. unfold create_recurring. unfold_M. rewrite Hg. cbn -[insert lookup iso stamp].
    eexists. split; [reflexivity|]. simplify_map_eq. reflexivity.
Qed.

End RecurringInt.

(** Each task of the goal is in exactly one of [show_velocity]'s two
    comprehensions. *)
Lemma filter_partition (goal_id : string) (ts c r l : list task) :
  filter_tasks (goal_task_with goal_id true) ts = Done c ->
  filter_tasks (goal_task_with goal_id false) ts = Done r ->
  filter_tasks (goal_task goal_id) ts = Done l ->
  (length c + length r = length l)%nat.
Proof.
  revert c r l. induction ts as [|t ts IH]; intros c r l Hc Hr Hl; cbn [filter_tasks] in *.
  - injection Hc as <-. injection Hr as <-. injection Hl as <-. reflexivity.
  - unfold goal_task_with, goal_task in *. cbv [obind mbind outcome_bind] in Hc, Hr, Hl.
    destruct (get_item t "goal_id") as [gv|]; [|discriminate Hc].
    destruct (py_eq gv (VStr goal_id)).
    + destruct (get_item t "status") as [st|]; [|discriminate Hc].
      destruct (filter_tasks (fun t0 => _) ts) as [c'|] eqn:Ec in Hc; [|discriminate Hc].
      destruct (filter_tasks (fun t0 => _) ts) as [r'|] eqn:Er in Hr; [|discriminate Hr].
      destruct (filter_tasks (fun t0 => _) ts) as [l'|] eqn:El in Hl; [|discriminate Hl].
      injection Hc as <-. injection Hr as <-. injection Hl as <-.
      pose proof (IH c' r' l' Ec Er El).
      destruct (is_str st "completed"); cbn [Bool.eqb length]; lia.
    + destruct (filter_tasks (fun t0 => _) ts) as [c'|] eqn:Ec in Hc; [|discriminate Hc].
      destruct (filter_tasks (fun t0 => _) ts) as [r'|] eqn:Er in Hr; [|discriminate Hr].
      destruct (filter_tasks (fun t0 => _) ts) as [l'|] eqn:El in Hl; [|discriminate Hl].
      injection Hc as <-. injection Hr as <-. injection Hl as <-.
      exact (IH c' r' l' Ec Er El).
Qed.

(** X14. In a velocity report, the completed and remaining counts add up to the number of the goal's tasks. *)
Theorem velocity_partition (data : store) (goal_id : string) (rep : velocity_report) (l : list task) :
  velocity_of data goal_id = Done (Some rep) ->
  filter_tasks (goal_task goal_id) (tasks data) = Done l ->
  (vr_completed rep + vr_remaining rep = length l)%nat.
Proof.
  intros H Hl. unfold velocity_of in H. cbv [obind mbind outcome_bind] in H.
  destruct (find_goal_from (goals data) (VStr goal_id)) as [[g|]|]; try discriminate H.
  destruct (filter_tasks (goal_task_with goal_id true) (tasks data)) as [c|] eqn:Ec; [|discriminate H].
  destruct (count_by_day ∅ c) as [by_day|]; [|discriminate H].
  destruct (filter_tasks (goal_task_with goal_id false) (tasks data)) as [r|] eqn:Er; [|discriminate H].
  injection H as <-. cbn. exact (filter_partition goal_id _ _ _ _ Ec Er Hl).
Qed.

(** X15. [show_velocity] exits with 'Goal not found' for a missing goal; with no tracked days the velocity and the estimated days are both 0. *)
Theorem show_velocity_edges (data : store) (goal_id : string) :
  (find_goal_from (goals data) (VStr goal_id) = Done None ->
     run (show_velocity data goal_id) = ([EStderr ("Goal not found: " ++ goal_id)], Raised (SystemExit 1)))
  /\ (forall rep, velocity_of data goal_id = Done (Some rep) -> vr_days_tracked rep = 0%nat ->
       vr_velocity rep = PInt 0 /\ vr_estimated_days rep = PInt 0).
Proof.
  split.
  - intros H. unfold show_velocity, velocity_of. unfold_M. rewrite H. reflexivity.
  - intros rep H Hd. unfold velocity_of in H. cbv [obind mbind outcome_bind] in H.
    destruct (find_goal_from (goals data) (VStr goal_id)) as [[g|]|]; try discriminate H.
    destruct (filter_tasks (goal_task_with goal_id true) (tasks data)) as [c|]; [|discriminate H].
    destruct (count_by_day ∅ c) as [by_day|]; [|discriminate H].
    destruct (filter_tasks (goal_task_with goal_id false) (tasks data)) as [r|]; [|discriminate H].
    injection H as <-. cbn [vr_days_tracked] in Hd. cbn [vr_velocity vr_estimated_days].
    rewrite Hd. cbn. split; reflexivity.
Qed.

(* ------------------------------------------------------------------ *)
(** ** The health check *)

(** [check_task] writes only [recurring], [progress] and [completed_at]. *)
Lemma check_task_frame (kt : tick_times) (t0 t5 : task) (is : list issue) (fs : list fix_applied) :
  check_task kt t0 = Done (t5, is, fs) ->
  forall k, k <> "recurring" -> k <> "progress" -> k <> "completed_at" -> t5 !! k = t0 !! k.
Proof.
  intros H k H1 H2 H3. unfold check_task in H.
  repeat (norm_lookups H; split_in H).
  all: norm_lookups H; injection H as <- _ _; rewrite ?lookup_insert_ne by congruence; reflexivity.
Qed.

Lemma health_loop_frame (clk : clock) (ts ts' : list task) (is : list issue) (fs : list fix_applied) :
  health_loop clk ts = Done (ts', is, fs) ->
  length ts' = length ts
  /\ forall j t t', ts !! j = Some t -> ts' !! j = Some t' ->
       forall k, k <> "recurring" -> k <> "progress" -> k <> "completed_at" -> t' !! k = t !! k.
Proof.
  revert clk ts' is fs. induction ts as [|t ts IH]; intros clk ts' is fs H; cbn in H.
  - injection H as <- _ _. split; [reflexivity|]. intros j t t' Hj. discriminate Hj.
  - destruct (check_task (clk 0%nat) t) as [[[t5 is1] fs1]|] eqn:E1; [|discriminate H]. cbn in H.
    destruct (health_loop (fun n => clk (S n)) ts) as [[[ts1 is2] fs2]|] eqn:E2; [|discriminate H]. cbn in H.
    injection H as <- _ _. destruct (IH _ ts1 is2 fs2 E2) as [IHl IHf].
    split; [cbn [length]; rewrite IHl; reflexivity|].
    intros [|j] u u' Hj Hj'; cbn in Hj, Hj'.
    + injection Hj as <-. injection Hj' as <-. exact (check_task_frame _ t t5 is1 fs1 E1).
    + exact (IHf j u u' Hj Hj').
Qed.

(** X16. [health_check] saves the store only when a fix was applied; it keeps the task count, and each task changes only in recurring, progress and completed_at. *)
Theorem health_check_frame (clk : clock) (now : Z) (data : store) (ts : list task) (is : list issue) (fs : list fix_applied) :
  health_loop clk (tasks data) = Done (ts, is, fs) ->
  saved (fst (run (health_check clk now data))) =
    (if Nat.eqb (length fs) 0 then None else Some (mkStore (goals data) ts))
  /\ length ts = length (tasks data)
  /\ forall j t t', tasks data !! j = Some t -> ts !! j = Some t' ->
       forall k, k <> "recurring" -> k <> "progress" -> k <> "completed_at" -> t' !! k = t !! k.
Proof.
  intros H. split; [|exact (health_loop_frame clk _ _ _ _ H)].
  unfold health_check. unfold_M. rewrite H.
  destruct fs as [|f fs]; cbn -[health_loop today iso]; unfold log_to_wal; unfold_M;
    cbn -[health_loop today iso]; reflexivity.
Qed.

(** After [check_task], a completed task has a truthy [completed_at] and a
    progress that is not below 100. *)
Lemma check_task_completed_post (k : tick_times) (t0 t5 : task) (is : list issue) (fs : list fix_applied) :
  check_task k t0 = Done (t5, is, fs) ->
  is_str (get_default t5 "status" VNull) "completed" = true ->
  truthy (get_default t5 "completed_at" VNull) = true
  /\ py_lt (get_default t5 "progress" (VInt 100)) (VInt 100) = Done false.
Proof.
  intros H Hst. pose proof (truthy_stamp (at_added k)) as T1. pose proof (truthy_stamp (at_reset k)) as T2.
  unfold check_task in H.
  set (S1 := stamp (at_added k)) in *. set (S2 := stamp (at_reset k)) in *.
  set (m := iso (at_compare k)) in *. clearbody S1 S2 m.
  repeat (norm_lookups H; split_in H).
  all: norm_lookups H; injection H as <- _ _.
  all: unfold get_default in *; rewrite ?lookup_insert_str in *;
       cbn [String.eqb Ascii.eqb Bool.eqb andb negb orb truthy py_lt as_number Z.ltb Z.compare] in *.
  all: try (rewrite Hst in *; cbn [andb negb] in *).
  all: try discriminate.
  all: split; [|first [reflexivity | assumption]].
  all: first [ assumption
             | match goal with E : negb ?b = false |- ?b = true => destruct b; [reflexivity|discriminate E] end ].
Qed.

(** X17. After [health_check], every completed task has a truthy completed_at and progress of at least 100. *)
Theorem health_check_completed_post (clk : clock) (data : store) (ts : list task) (is : list issue)
    (fs : list fix_applied) :
  health_loop clk (tasks data) = Done (ts, is, fs) ->
  forall t, In t ts -> is_str (get_default t "status" VNull) "completed" = true ->
  truthy (get_default t "completed_at" VNull) = true
  /\ py_lt (get_default t "progress" (VInt 100)) (VInt 100) = Done false.
Proof.
  generalize (tasks data) as l. intros l. revert clk ts is fs.
  induction l as [|t0 l IH]; intros clk ts is fs H t Hin Hst; cbn in H.
  - injection H as <- _ _. destruct Hin.
  - destruct (check_task (clk 0%nat) t0) as [[[t5 is1] fs1]|] eqn:E1; [|discriminate H]. cbn in H.
    destruct (health_loop (fun n => clk (S n)) l) as [[[ts1 is2] fs2]|] eqn:E2; [|discriminate H]. cbn in H.
    injection H as <- _ _. destruct Hin as [<-|Hin].
    + exact (check_task_completed_post _ t0 t5 is1 fs1 E1 Hst).
    + exact (IH _ ts1 is2 fs2 E2 t Hin Hst).
Qed.

Lemma string_compare_strict_prefix (s : string) (c : Ascii.ascii) (u : string) :
  String.compare s (s ++ String c u) = Lt.
Proof.
  induction s as [|a s IH]; simpl; [reflexivity|].
  unfold Ascii.compare at 1. rewrite N.compare_refl. exact IH.
Qed.

Lemma py_gt_stamp_now (now : Z) : py_gt (stamp now) (VStr (iso now)) = Done true.
Proof.
  unfold py_gt, py_lt, stamp. cbn [as_number]. rewrite string_compare_strict_prefix. reflexivity.
Qed.

(** X18. A completed task at progress 100 or more with no completed_at gets completed_at stamped from the instant of Check 3; when Check 5's [now()] is a later instant (that is, the stamp with its Z suffix does not sort after it), only the missing date is reported and fixed; when both calls read the same instant, the fresh stamp also counts as a future date, and the task is reported and fixed twice, ending with the stamp of Check 5's reset. *)
Theorem check_task_missing_completed_at (k : tick_times) (t : task) (p : Z) :
  truthy (get_default t "recurring" VNull) && negb (truthy (get_default t "goal_id" VNull)) = false ->
  t !! "status" = Some (VStr "completed") -> t !! "completed_at" = None ->
  t !! "progress" = Some (VInt p) -> 100 <= p ->
  t !! "actual_minutes" = None -> t !! "estimate_minutes" = None ->
  (String.compare (iso (at_added k) ++ "Z") (iso (at_compare k)) <> Gt ->
   check_task k t =
    Done (<["completed_at" := stamp (at_added k)]> t,
          [IInconsistentCompletion (get_default t "id" (VStr "unknown"))],
          [FAddedCompletedAt (get_default t "id" (VStr "unknown"))]))
  /\ (at_compare k = at_added k ->
   check_task k t =
    Done (<["completed_at" := stamp (at_reset k)]> t,
          [IInconsistentCompletion (get_default t "id" (VStr "unknown"));
           IBadDate (get_default t "id" (VStr "unknown"))],
          [FAddedCompletedAt (get_default t "id" (VStr "unknown"));
           FResetCompletedAt (get_default t "id" (VStr "unknown"))])).
Proof.
  intros Hc1 Hs Hc Hp Hle Ha He.
  assert (Hg : check_task k t =
    let t3 := <["completed_at" := stamp (at_added k)]> t in
    match py_gt (stamp (at_added k)) (VStr (iso (at_compare k))) with
    | Done c5 =>
        Done (if c5 then <["completed_at" := stamp (at_reset k)]> t3 else t3,
              ([IInconsistentCompletion (get_default t "id" (VStr "unknown"))]
               ++ (if c5 then [IBadDate (get_default t "id" (VStr "unknown"))] else []))%list,
              ([FAddedCompletedAt (get_default t "id" (VStr "unknown"))]
               ++ (if c5 then [FResetCompletedAt (get_default t "id" (VStr "unknown"))] else []))%list)
    | Raised e => Raised e
    end).
  { unfold check_task. rewrite Hc1.
    cbv beta iota zeta delta [obind mbind outcome_bind].
    unfold get_default. rewrite ?lookup_insert_str. cbn [String.eqb Ascii.eqb Bool.eqb andb].
    rewrite Hs, Hp. cbn -[insert lookup iso stamp py_gt].
    replace (p <? 100) with false by (symmetry; apply Z.ltb_ge; exact Hle).
    cbn -[insert lookup iso stamp py_gt].
    rewrite Hs, Hc. cbn -[insert lookup iso stamp py_gt].
    rewrite !lookup_insert_ne by discriminate. rewrite Ha, He, Hs, lookup_insert_eq.
    cbn -[insert lookup iso stamp py_gt].
    destruct (py_gt (stamp (at_added k)) (VStr (iso (at_compare k)))) as [[]|]; reflexivity. }
  split.
  - intros Hclk. rewrite Hg, (py_gt_stamp _ _ Hclk). reflexivity.
  - intros Heq. rewrite Hg, Heq, py_gt_stamp_now. cbn zeta.
    rewrite insert_insert_eq. reflexivity.
Qed.

(** A task whose estimate is 0 and whose time spent is positive makes
    Check 4's [actual / estimate] raise ZeroDivisionError. *)
Lemma check_task_zero_estimate (k : tick_times) (t : task) (a : Z) :
  t !! "estimate_minutes" = Some (VInt 0) -> t !! "actual_minutes" = Some (VInt a) -> 0 < a ->
  (is_str (get_default t "status" VNull) "completed" = true ->
     exists b, py_lt (get_default t "progress" (VInt 100)) (VInt 100) = Done b) ->
  check_task k t = Raised ZeroDivisionError.
Proof.
  intros He Ha Hpos Hlt. unfold check_task.
  cbv beta iota zeta delta [obind mbind outcome_bind].
  set (c1 := truthy (get_default t "recurring" VNull) && negb (truthy (get_default t "goal_id" VNull))).
  assert (Hs1 : get_default (if c1 then <["recurring" := VNull]> t else t) "status" VNull
                = get_default t "status" VNull)
    by (destruct c1; unfold get_default; rewrite ?lookup_insert_ne by discriminate; reflexivity).
  assert (Hp1 : get_default (if c1 then <["recurring" := VNull]> t else t) "progress" (VInt 100)
                = get_default t "progress" (VInt 100))
    by (destruct c1; unfold get_default; rewrite ?lookup_insert_ne by discriminate; reflexivity).
  rewrite Hs1, Hp1.
  destruct (is_str (get_default t "status" VNull) "completed") eqn:Es.
  - destruct (Hlt eq_refl) as [b Hb]. rewrite Hb.
    unfold get_default. rewrite !lookup_if_insert, ?lookup_insert_str.
    cbn [String.eqb Ascii.eqb Bool.eqb andb].
    rewrite ?andb_false_r. rewrite He, Ha.
    cbn. rewrite (proj2 (Z.ltb_lt (0 * 10) a) ltac:(lia)). reflexivity.
  - unfold get_default. rewrite !lookup_if_insert.
    cbn [String.eqb Ascii.eqb Bool.eqb andb]. rewrite ?andb_false_r. rewrite He, Ha.
    cbn. rewrite (proj2 (Z.ltb_lt (0 * 10) a) ltac:(lia)). reflexivity.
Qed.

(** X19. [health_check] raises ZeroDivisionError, with no effect, on a task with estimate 0 and positive actual minutes that the earlier tasks reach. *)
Theorem health_check_zero_estimate (clk : clock) (now : Z) (data : store) (ts1 ts2 : list task) (t : task)
    (r1 : list task * list issue * list fix_applied) (a : Z) :
  tasks data = (ts1 ++ t :: ts2)%list -> health_loop clk ts1 = Done r1 ->
  t !! "estimate_minutes" = Some (VInt 0) -> t !! "actual_minutes" = Some (VInt a) -> 0 < a ->
  (is_str (get_default t "status" VNull) "completed" = true ->
     exists b, py_lt (get_default t "progress" (VInt 100)) (VInt 100) = Done b) ->
  run (health_check clk now data) = ([], Raised ZeroDivisionError).
Proof.
  intros Hts H1 He Ha Hpos Hlt.
  assert (Hl : health_loop clk (ts1 ++ t :: ts2)%list = Raised ZeroDivisionError).
  { clear Hts. revert clk r1 H1. induction ts1 as [|t0 ts1 IH]; intros clk r1 H1; cbn [app health_loop].
    - rewrite (check_task_zero_estimate (clk 0%nat) t a He Ha Hpos Hlt). reflexivity.
    - cbn [health_loop] in H1.
      destruct (check_task (clk 0%nat) t0) as [[[t5 is1] fs1]|]; [|discriminate H1]. cbn in H1 |- *.
      destruct (health_loop (fun n => clk (S n)) ts1) as [r|] eqn:E; [|discriminate H1].
      rewrite (IH _ r E). reflexivity. }
  unfold health_check. unfold_M. rewrite Hts, Hl. reflexivity.
Qed.

(** X20. When no fix applies, [health_check] writes only its WAL entry and the report, saves nothing and leaves the tasks unchanged. *)
Theorem health_check_no_fix (clk : clock) (now : Z) (data : store) (ts : list task) (is : list issue) :
  health_loop clk (tasks data) = Done (ts, is, []) ->
  run (health_check clk now data) =
    ([EWal ("WAL-" ++ today now ++ ".log")
        (mkWal (iso now) "HEALTH_CHECK"
           [("issues_found", VInt (Z.of_nat (length is))); ("auto_fixes_applied", VInt 0);
            ("timestamp", VStr (iso now))]);
      EStdout [("success", VBool true);
               ("health_status", VStr (if Nat.eqb (length is) 0 then "healthy" else "issues_found"))]],
     Done (is, []))
  /\ ts = tasks data.
Proof.
  intros H. split; [|exact (health_loop_unchanged clk _ _ _ H)].
  unfold health_check. unfold_M. rewrite H. cbn -[health_loop today iso]. unfold log_to_wal. unfold_M.
  reflexivity.
Qed.

(** X21. [check_task] reports a time anomaly, without a fix, when actual minutes exceed ten times a non-zero estimate. *)
Theorem check_task_time_anomaly (k : tick_times) (t : task) (a e : Z) :
  truthy (get_default t "recurring" VNull) && negb (truthy (get_default t "goal_id" VNull)) = false ->
  is_str (get_default t "status" VNull) "completed" = false ->
  t !! "actual_minutes" = Some (VInt a) -> t !! "estimate_minutes" = Some (VInt e) ->
  e <> 0 -> e * 10 < a ->
  check_task k t = Done (t, [ITimeAnomaly (get_default t "id" (VStr "unknown"))], []).
Proof.
  intros Hc1 Hs Ha He Hne Hlt. unfold check_task. rewrite Hc1.
  cbv beta iota zeta delta [obind mbind outcome_bind]. rewrite Hs. cbn beta iota.
  assert (Ga : get_default t "actual_minutes" (VInt 0) = VInt a) by (unfold get_default; rewrite Ha; reflexivity).
  assert (Ge : get_default t "estimate_minutes" (VInt 1) = VInt e) by (unfold get_default; rewrite He; reflexivity).
  rewrite Hs. cbn [andb]. rewrite Ga, Ge, ?Hs. cbn [andb py_mul10 py_gt py_lt as_number].
  rewrite (proj2 (Z.ltb_lt _ _) Hlt). cbn [py_truediv_check as_number].
  destruct e; [congruence| |]; reflexivity.
Qed.

Lemma str_app_assoc (a b c : string) : ((a ++ b) ++ c)%string = (a ++ (b ++ c))%string.
Proof.
  induction a as [|x a IH]; [reflexivity|].
  change (String x ((a ++ b) ++ c) = String x (a ++ (b ++ c))). rewrite IH. reflexivity.
Qed.

Lemma str_app_nil_r (a : string) : (a ++ "")%string = a.
Proof.
  induction a as [|x a IH]; [reflexivity|]. change (String x (a ++ "") = String x a). rewrite IH. reflexivity.
Qed.

Lemma str_cons_app (c : Ascii.ascii) (u s : string) : (String c u ++ s)%string = String c (u ++ s).
Proof. reflexivity. Qed.

Lemma str_nil_app (s : string) : ("" ++ s)%string = s.
Proof. reflexivity. Qed.

Lemma before_T_cons (c : Ascii.ascii) (s : string) :
  Ascii.eqb c (Ascii.ascii_of_nat 84) = false -> before_T (String c s) = String c (before_T s).
Proof. intros H. cbn [before_T]. rewrite H. reflexivity. Qed.

Lemma before_T_T (s : string) : before_T (String (Ascii.ascii_of_nat 84) s) = "".
Proof. reflexivity. Qed.

(** [s.split("T")[0]] of a stamp is the stamp's UTC date. *)
Lemma before_T_pad (w : nat) (n : Z) (s : string) : before_T (pad w n ++ s) = (pad w n ++ before_T s)%string.
Proof.
  revert n s. induction w as [|w IH]; intros n s; [reflexivity|].
  cbn [pad]. rewrite str_app_assoc, IH, str_cons_app, str_nil_app. cbn [before_T]. unfold digit.
  assert (Hd : (0 <= n mod 10 < 10)) by (apply Z.mod_pos_bound; lia).
  assert (Hc : Ascii.eqb (Ascii.ascii_of_nat (48 + Z.to_nat (n mod 10))) (Ascii.ascii_of_nat 84) = false).
  { destruct (Z.to_nat (n mod 10)) as [|[|[|[|[|[|[|[|[|[|k]]]]]]]]]] eqn:Ek; try reflexivity. lia. }
  rewrite Hc, str_app_assoc. reflexivity.
Qed.

(** X22. The date part of [stamp now] is [today now]; a task completed now is counted under today's date by [count_by_day]. *)
Theorem split_date_stamp (now : Z) (m : gmap string Z) (t : task) :
  split_date (stamp now) = Done (today now)
  /\ (t !! "completed_at" = Some (stamp now) ->
      count_by_day m [t] = Done (<[today now := default 0 (m !! today now) + 1]> m)).
Proof.
  assert (H : split_date (stamp now) = Done (today now)).
  { unfold split_date, stamp, iso, today, date_part.
    destruct (civil_from_days (now / usec_per_day)) as [[y mo] d].
    f_equal. rewrite !str_app_assoc.
    repeat first [rewrite before_T_pad | rewrite str_cons_app | rewrite str_nil_app | rewrite before_T_T
                 | rewrite before_T_cons by reflexivity].
    rewrite str_app_nil_r. reflexivity. }
  split; [exact H|]. intros Hc. cbn [count_by_day].
  rewrite Hc, bool_decide_eq_true_2 by (eexists; reflexivity). unfold get_item. rewrite Hc.
  cbv beta iota delta [obind mbind outcome_bind]. rewrite H. reflexivity.
Qed.

(* ------------------------------------------------------------------ *)
(** ** The working buffer and the phase-2 command line *)

Lemma count_nl_app (a b : string) : count_nl (a ++ b) = (count_nl a + count_nl b)%nat.
Proof.
  induction a as [|c a IH]; [reflexivity|].
  change (count_nl (String c (a ++ b)) = (count_nl (String c a) + count_nl b)%nat).
  cbn [count_nl]. rewrite IH. lia.
Qed.

Lemma count_nl_pad (w : nat) (n : Z) : count_nl (pad w n) = 0%nat.
Proof.
  revert n. induction w as [|w IH]; intros n; [reflexivity|].
  cbn [pad]. rewrite count_nl_app, IH. cbn [count_nl]. unfold digit.
  assert (Hd : (0 <= n mod 10 < 10)) by (apply Z.mod_pos_bound; lia).
  destruct (Z.to_nat (n mod 10)) as [|[|[|[|[|[|[|[|[|[|k]]]]]]]]]] eqn:Ek; try reflexivity. lia.
Qed.

Lemma count_nl_iso (t : Z) : count_nl (iso t) = 0%nat.
Proof.
  unfold iso, date_part. destruct (civil_from_days (t / usec_per_day)) as [[y m] d].
  rewrite !count_nl_app, !count_nl_pad.
  destruct (_ =? 0); [reflexivity|]. rewrite !count_nl_app, count_nl_pad. reflexivity.
Qed.

Lemma count_nl_entry (t : Z) (ev d : string) :
  count_nl ev = 0%nat -> count_nl d = 0%nat -> count_nl (buffer_entry t ev d) = 1%nat.
Proof.
  intros He Hd. unfold buffer_entry. rewrite !count_nl_app, He, Hd, count_nl_iso. reflexivity.
Qed.

Lemma length_split_nl (s : string) : length (split_nl s) = S (count_nl s).
Proof.
  induction s as [|c s IH]; [reflexivity|]. cbn [split_nl count_nl].
  destruct (Ascii.eqb c nl_char); cbn [length]; [rewrite IH; reflexivity|].
  destruct (split_nl s) as [|h tl]; cbn [length] in *; [discriminate IH|]. exact IH.
Qed.

Lemma append_to_buffer_fold (es : list (Z * string * string)) (fs : memory_files) (b : string) :
  working_buffer fs = Some b ->
  fold_left (fun fs '(t, ev, d) => append_to_buffer_file t ev d fs) es fs =
    mkFiles (Some (b ++ String.concat "" (map (fun '(t, ev, d) => buffer_entry t ev d) es)))
            (daily_files fs).
Proof.
  revert fs b. induction es as [|[[t ev] d] es IH]; intros fs b Hb; cbn [fold_left map].
  - destruct fs as [wb df]. cbn in Hb |- *. rewrite Hb, str_app_nil_r. reflexivity.
  - rewrite (IH _ (b ++ buffer_entry t ev d)) by (cbn; rewrite Hb; reflexivity). cbn [daily_files].
    f_equal. f_equal. rewrite str_app_assoc. f_equal.
    destruct es as [|e es]; cbn [map String.concat]; [rewrite str_app_nil_r; reflexivity|reflexivity].
Qed.

Lemma count_nl_entries (es : list (Z * string * string)) :
  Forall (fun '(t, ev, d) => count_nl ev = 0%nat /\ count_nl d = 0%nat) es ->
  count_nl (String.concat "" (map (fun '(t, ev, d) => buffer_entry t ev d) es)) = length es.
Proof.
  induction es as [|[[t ev] d] es IH]; intros H; [reflexivity|].
  inversion H as [|x l Hx Hr]; subst. cbn in Hx. destruct Hx as [He Hd].
  cbn [map length]. destruct es as [|e es].
  - cbn [map String.concat]. rewrite count_nl_entry by assumption. reflexivity.
  - change (count_nl (buffer_entry t ev d ++ ("" ++ String.concat "" (map (fun '(t, ev, d) => buffer_entry t ev d) (e :: es))))
            = S (length (e :: es))).
    rewrite count_nl_app, str_nil_app, count_nl_entry, IH by assumption. reflexivity.
Qed.

(** X23. Entries appended to an empty or absent working buffer are flushed into today's daily file under '## Task Updates', one line per entry plus one; the buffer is then empty. *)
Theorem buffer_round_trip (now : Z) (es : list (Z * string * string)) (fs : memory_files) :
  working_buffer fs = Some "" \/ (working_buffer fs = None /\ es <> []) ->
  Forall (fun '(t, ev, d) => count_nl ev = 0%nat /\ count_nl d = 0%nat) es ->
  run (flush_working_buffer now (fold_left (fun fs '(t, ev, d) => append_to_buffer_file t ev d fs) es fs)) =
    ([EStdout [("success", VBool true); ("message", VStr ("Buffer flushed to " ++ today now ++ ".md"));
               ("lines_flushed", VInt (Z.of_nat (length es + 1)))]],
     Done (mkFiles (Some "")
             (<[today now ++ ".md" :=
                 default "" (daily_files fs !! (today now ++ ".md")) ++ newline ++ "## Task Updates" ++ newline
                 ++ String.concat "" (map (fun '(t, ev, d) => buffer_entry t ev d) es) ++ newline]>
                (daily_files fs)))).
Proof.
  intros Hb Hnl.
  assert (Hf : fold_left (fun fs '(t, ev, d) => append_to_buffer_file t ev d fs) es fs =
                 mkFiles (Some (String.concat "" (map (fun '(t, ev, d) => buffer_entry t ev d) es)))
                         (daily_files fs)).
  { destruct Hb as [Hb|[Hb Hne]].
    - rewrite (append_to_buffer_fold es fs "" Hb). reflexivity.
    - destruct es as [|[[t ev] d] es]; [congruence|]. cbn [fold_left].
      rewrite (append_to_buffer_fold es _ (buffer_entry t ev d)) by (cbn; rewrite Hb; reflexivity).
      cbn [daily_files default]. f_equal. f_equal. cbn [map].
      destruct es as [|e es]; cbn [map String.concat]; [rewrite str_app_nil_r; reflexivity|reflexivity]. }
  rewrite Hf. unfold flush_working_buffer, run, mbind, M_bind, bind, mret, M_ret, ret, emit. cbn [working_buffer daily_files app].
  rewrite length_split_nl, count_nl_entries by exact Hnl. repeat f_equal. lia.
Qed.

(** X24. [flush_working_buffer] does nothing without a buffer and otherwise clears it; a second flush appends an empty '## Task Updates' section. *)
Theorem flush_edges (now : Z) (fs : memory_files) :
  (working_buffer fs = None -> run (flush_working_buffer now fs) = ([], Done fs))
  /\ (forall tr fs', run (flush_working_buffer now fs) = (tr, Done fs') ->
        working_buffer fs' = Some "" \/ fs' = fs)
  /\ (forall b, working_buffer fs = Some b ->
        exists fs', run (flush_working_buffer now fs) = (fst (run (flush_working_buffer now fs)), Done fs')
          /\ run (flush_working_buffer now fs') =
               ([EStdout [("success", VBool true); ("message", VStr ("Buffer flushed to " ++ today now ++ ".md"));
                          ("lines_flushed", VInt 1)]],
                Done (mkFiles (Some "")
                        (<[today now ++ ".md" :=
                            default "" (daily_files fs !! (today now ++ ".md")) ++ newline ++ "## Task Updates"
                            ++ newline ++ b ++ newline ++ newline ++ "## Task Updates" ++ newline ++ newline]>
                           (daily_files fs))))).
Proof.
  split; [|split].
  - intros H. unfold flush_working_buffer. rewrite H. reflexivity.
  - intros tr fs' H. unfold flush_working_buffer in H.
    destruct (working_buffer fs); injection H as _ <-; [left; reflexivity|right; reflexivity].
  - intros b H. unfold flush_working_buffer. rewrite H.
    eexists. split; [reflexivity|]. cbn [working_buffer daily_files].
    unfold run, mbind, M_bind, bind, mret, M_ret, ret, emit. cbn [app].
    rewrite lookup_insert_eq, insert_insert_eq. cbn [default from_option]. unfold id.
    rewrite !str_app_assoc, str_nil_app. reflexivity.
Qed.

Section CommandLineInt.
Variable py_int : string -> outcome Z.

(** X25. The phase-2 CLI prints usage and exits with code 1 when no command is given, and reports an unknown command. *)
Theorem main2_dispatch (clk : clock) (now : Z) (data : store) (argv : list string) :
  ((length argv < 2)%nat ->
     main2 py_int clk now data argv =
       Done (CliExit false ["Usage: task_manager_phase2.py <command> [args]";
                            "Commands: mark-progress, log-time, mark-blocked, health-check, flush-buffer"]))
  /\ (forall script command rest,
        argv = script :: command :: rest ->
        ~ In command ["mark-progress"; "log-time"; "mark-blocked"; "health-check"; "flush-buffer"] ->
        main2 py_int clk now data argv = Done (CliExit true ["Unknown command: " ++ command])).
Proof.
  split.
  - intros H. destruct argv as [|a [|b argv]]; [reflexivity|reflexivity|cbn in H; lia].
  - intros script command rest -> Hn. cbn [main2].
    repeat match goal with
           | |- context [String.eqb command ?s] =>
               let E := fresh in
               destruct (String.eqb_spec command s) as [E|E]; [subst; cbn in Hn; tauto|]
           end.
    reflexivity.
Qed.

(** X26. For any non-empty task id, the phase-2 CLI defaults progress and minutes to 0 and notes to empty when they are absent, passes a progress or minutes argument that int() converts and the notes through, and defaults the block reason to 'No reason specified' when it is absent; with the task id absent or empty, followed by nothing or by an argument that int() converts, each of the three commands prints its usage to stderr and exits with code 1. *)
Theorem main2_defaults (clk : clock) (now : Z) (data : store) (script task_id p notes r : string)
    (rest : list string) (n : Z) :
  task_id <> "" -> py_int p = Done n ->
  main2 py_int clk now data [script; "mark-progress"; task_id] = Done (CliRun (mark_progress2 now data task_id 0 ""))
  /\ main2 py_int clk now data [script; "mark-progress"; task_id; p] =
       Done (CliRun (mark_progress2 now data task_id n ""))
  /\ main2 py_int clk now data (script :: "mark-progress" :: task_id :: p :: notes :: rest) =
       Done (CliRun (mark_progress2 now data task_id n notes))
  /\ main2 py_int clk now data [script; "log-time"; task_id] = Done (CliRun (log_time2 now data task_id 0 ""))
  /\ main2 py_int clk now data [script; "log-time"; task_id; p] =
       Done (CliRun (log_time2 now data task_id n ""))
  /\ main2 py_int clk now data (script :: "log-time" :: task_id :: p :: notes :: rest) =
       Done (CliRun (log_time2 now data task_id n notes))
  /\ main2 py_int clk now data [script; "mark-blocked"; task_id] =
       Done (CliRun (mark_blocked2 now data task_id "No reason specified"))
  /\ main2 py_int clk now data (script :: "mark-blocked" :: task_id :: r :: rest) =
       Done (CliRun (mark_blocked2 now data task_id r))
  /\ (forall argv, argv = [script; "mark-progress"] \/ argv = [script; "mark-progress"; ""]
                   \/ argv = script :: "mark-progress" :: "" :: p :: rest ->
       main2 py_int clk now data argv =
         Done (CliExit true ["Usage: task_manager_phase2.py mark-progress <task_id> <progress> [notes]"]))
  /\ (forall argv, argv = [script; "log-time"] \/ argv = [script; "log-time"; ""]
                   \/ argv = script :: "log-time" :: "" :: p :: rest ->
       main2 py_int clk now data argv =
         Done (CliExit true ["Usage: task_manager_phase2.py log-time <task_id> <minutes> [notes]"]))
  /\ (forall argv, argv = [script; "mark-blocked"] \/ argv = [script; "mark-blocked"; ""]
                   \/ argv = script :: "mark-blocked" :: "" :: p :: rest ->
       main2 py_int clk now data argv =
         Done (CliExit true ["Usage: task_manager_phase2.py mark-blocked <task_id> <reason>"])).
Proof.
  intros H Hp. apply String.eqb_neq in H.
  repeat split; try (intros argv [->|[->| ->]]); cbn [main2 nth_error default]; rewrite ?H, ?Hp; reflexivity.
Qed.

(** X27. The phase-2 CLI converts the progress or minutes argument with int() before checking the task id, so a failed conversion raises even when the id is empty. *)
Theorem main2_parse_before_id_check (clk : clock) (now : Z) (data : store) (script s notes : string) (e : exc) :
  py_int s = Raised e ->
  main2 py_int clk now data [script; "mark-progress"; ""; s] = Raised e
  /\ main2 py_int clk now data [script; "log-time"; ""; s; notes] = Raised e.
Proof.
  intros H. cbn [main2 nth_error]. rewrite H. split; reflexivity.
Qed.

End CommandLineInt.

(* ------------------------------------------------------------------ *)
(** ** Witnesses of the additional properties *)

Lemma mark_progress2_status_quirks_witness :
  exists t' : task, saved (fst (run (mark_progress2 sample_now (sample_store [task_with "completed" 40]) "task_1" 70 "done")))
               = Some (set_task (sample_store [task_with "completed" 40]) 0 t')
    /\ t' !! "status" = Some (VStr "completed") /\ t' !! "progress" = Some (VInt 70).
Proof.
  exact (proj1 (mark_progress2_status_quirks sample_now (sample_store [task_with "completed" 40]) "task_1" 0%nat
                  (task_with "completed" 40) 70 "done" ltac:(reflexivity))
           ltac:(right; left; reflexivity) ltac:(reflexivity)).
Defined.

Lemma mark_progress2_notes_witness :
  exists t' : task, saved (fst (run (mark_progress2 sample_now (sample_store [noted_task])
                               "task_1" 20 "b")))
               = Some (set_task (sample_store [noted_task]) 0 t')
    /\ t' !! "notes" = Some (VStr (if String.eqb "a" "" then "b" else "a" ++ newline ++ "b")).
Proof.
  exact (proj1 (mark_progress2_notes sample_now (sample_store [noted_task])
                  "task_1" 0%nat (noted_task) 20 "b"
                  ltac:(reflexivity) ltac:(discriminate)) "a" ltac:(reflexivity)).
Defined.

Lemma mark_progress1_other_status_witness :
  run (mark_progress1 sample_now (sample_store [task_with "blocked" 10]) "task_1" 50) =
    ([ESave (set_task (sample_store [task_with "blocked" 10]) 0
               (<["updated_at" := stamp sample_now]> (<["progress" := VInt 50]> (task_with "blocked" 10))));
      EStdout [("success", VBool true);
               ("task", task_json (<["updated_at" := stamp sample_now]> (<["progress" := VInt 50]> (task_with "blocked" 10))))]],
     Done tt).
Proof.
  exact (mark_progress1_other_status sample_now (sample_store [task_with "blocked" 10]) "task_1" 0%nat
           (task_with "blocked" 10) 50 "blocked" ltac:(reflexivity) ltac:(reflexivity)
           ltac:(discriminate) ltac:(discriminate) ltac:(lia)).
Defined.

Lemma block_then_unblock_witness :
  exists d1 t2, saved (fst (run (mark_blocked1 sample_now (sample_store [task_with "in_progress" 10]) "task_1" "r"))) = Some d1
   /\ run (unblock_task1 (sample_now + 1) d1 "task_1") =
        ([ESave (set_task (sample_store [task_with "in_progress" 10]) 0 t2);
          EStdout [("success", VBool true); ("task", task_json t2)]], Done tt)
   /\ t2 !! "status" = Some (VStr "pending") /\ t2 !! "blocked_reason" = Some VNull
   /\ t2 !! "updated_at" = Some (stamp (sample_now + 1))
   /\ forall k, k <> "status" -> k <> "blocked_reason" -> k <> "updated_at" ->
        t2 !! k = (task_with "in_progress" 10) !! k.
Proof.
  exact (block_then_unblock sample_now (sample_now + 1) (sample_store [task_with "in_progress" 10]) "task_1" "r" 0%nat
           (task_with "in_progress" 10) ltac:(reflexivity)).
Defined.

Lemma log_time2_adds_witness :
  exists t' : task, saved (fst (run (log_time2 sample_now (sample_store [noted_task]) "task_1" 30 "more")))
               = Some (set_task (sample_store [noted_task]) 0 t')
    /\ t' !! "actual_minutes" = Some (VInt (0 + 30))
    /\ (noted_task !! "status" = Some (VStr "pending") ->
          t' !! "status" = Some (VStr (if 0 <? 0 + 30 then "in_progress" else "pending")))
    /\ (noted_task !! "status" <> Some (VStr "pending") ->
          t' !! "status" = noted_task !! "status").
Proof.
  exact (proj1 (log_time2_adds sample_now (sample_store [noted_task]) "task_1" 0%nat noted_task 30 0 "more"
           ltac:(reflexivity) ltac:(reflexivity))
           ltac:(right; right; left; eexists; reflexivity)).
Defined.

Lemma next_recurring_not_recurring_witness :
  run (next_recurring sample_now (sample_store [task_with "in_progress" 100]) "task_1" "task_2") =
    ([EStderr "Task is not recurring"], Raised (SystemExit 1)).
Proof.
  exact (next_recurring_not_recurring sample_now (sample_store [task_with "in_progress" 100]) "task_1" "task_2" 0%nat
           (task_with "in_progress" 100) ltac:(reflexivity) ltac:(left; reflexivity)).
Defined.

Lemma next_recurring_successor_copy_witness :
  exists nt : task, nt !! "created_at" = Some (stamp sample_now) /\ nt !! "recurring" = Some (VStr "weekly")
    /\ nt !! "title" = Some (VStr "Write").
Proof.
  destruct (next_recurring_successor_copy sample_now (sample_store [recurring_task (VStr "weekly") 100]) "task_1" "task_2"
              0%nat (recurring_task (VStr "weekly") 100) (VStr "weekly") 100 ltac:(reflexivity)
              ltac:(reflexivity) ltac:(discriminate) ltac:(reflexivity) ltac:(lia))
    as (nt & _ & Hk & _ & _ & _ & _ & Hc & Hr).
  exists nt. split; [exact Hc|]. split; [exact Hr|].
  rewrite (Hk "title" ltac:(cbn; intuition discriminate)). reflexivity.
Defined.

Lemma next_recurring_repeatable_witness :
  exists d1 d2,
    saved (fst (run (next_recurring sample_now (sample_store [recurring_task (VStr "weekly") 100]) "task_1" "task_2"))) = Some d1
    /\ saved (fst (run (next_recurring (sample_now + 1) d1 "task_1" "task_3"))) = Some d2
    /\ length (tasks d2) = 3%nat.
Proof.
  destruct (next_recurring_repeatable sample_now (sample_now + 1) (sample_store [recurring_task (VStr "weekly") 100])
              "task_1" "task_2" "task_3" 0%nat (recurring_task (VStr "weekly") 100) (VStr "weekly") 100
              ltac:(reflexivity) ltac:(reflexivity) ltac:(discriminate)
              ltac:(reflexivity) ltac:(lia)) as (d1 & d2 & H1 & H2 & Hl & _).
  exists d1, d2. split; [exact H1|]. split; [exact H2|]. rewrite Hl. reflexivity.
Defined.

Lemma create_recurring_appends_witness :
  exists nt : task, nt !! "priority" = Some (VStr "medium")
    /\ run (next_recurring (sample_now + 1) (mkStore [sample_goal] (app [] [nt])) "task_9" "task_10") =
         ([EStderr "Task must be 100% complete before creating next occurrence"], Raised (SystemExit 1)).
Proof.
  destruct (create_recurring_appends (fun _ => Done 0) sample_now (sample_now + 1) (sample_store []) "goal_1" "Standup"
              "daily" "task_9" "task_10" None sample_goal ltac:(reflexivity) ltac:(reflexivity)
              ltac:(discriminate))
    as (nt & _ & _ & _ & _ & _ & _ & _ & _ & _ & Hp & _ & Hn).
  exists nt. split; [exact (Hp eq_refl)|exact Hn].
Defined.

Lemma create_recurring_goal_and_estimate_witness :
  exists nt : task, nt !! "estimate_minutes" = Some (VInt 30).
Proof.
  destruct (proj1 (proj2 (create_recurring_goal_and_estimate (fun _ => Done 30) sample_now (sample_store []) "goal_1"
              "Standup" "daily" "task_9" None)) sample_goal "30" 30 ltac:(reflexivity) ltac:(discriminate)
              eq_refl) as (nt & _ & He).
  exists nt. exact He.
Defined.

Lemma velocity_partition_witness :
  (vr_completed (mkReport 0 1 0 (py_round (PInt 0) 2) (py_round (PInt 0) 1) ∅)
   + vr_remaining (mkReport 0 1 0 (py_round (PInt 0) 2) (py_round (PInt 0) 1) ∅)
   = length [task_with "pending" 0])%nat.
Proof.
  exact (velocity_partition (sample_store [task_with "pending" 0]) "goal_1"
           (mkReport 0 1 0 (py_round (PInt 0) 2) (py_round (PInt 0) 1) ∅) [task_with "pending" 0]
           ltac:(reflexivity) ltac:(reflexivity)).
Defined.

Lemma show_velocity_edges_witness :
  run (show_velocity (sample_store []) "goal_9") = ([EStderr ("Goal not found: " ++ "goal_9")], Raised (SystemExit 1)).
Proof.
  exact (proj1 (show_velocity_edges (sample_store []) "goal_9") ltac:(reflexivity)).
Defined.

Lemma health_check_frame_witness :
  saved (fst (run (health_check (ticking_clock sample_now) sample_now (sample_store [task_with "completed" 40])))) =
    Some (mkStore [sample_goal]
            [repaired_task]).
Proof.
  exact (proj1 (health_check_frame (ticking_clock sample_now) sample_now (sample_store [task_with "completed" 40])
    [repaired_task]
    [IImpossibleProgress (VStr "task_1"); IInconsistentCompletion (VStr "task_1")]
    [FSetProgress100 (VStr "task_1"); FAddedCompletedAt (VStr "task_1")]
    ltac:(reflexivity))).
Defined.

Lemma health_check_completed_post_witness :
  truthy (get_default (repaired_task) "completed_at" VNull) = true
  /\ py_lt (get_default (repaired_task) "progress" (VInt 100)) (VInt 100) = Done false.
Proof.
  exact (health_check_completed_post (ticking_clock sample_now) (sample_store [task_with "completed" 40])
    [repaired_task]
    [IImpossibleProgress (VStr "task_1"); IInconsistentCompletion (VStr "task_1")]
    [FSetProgress100 (VStr "task_1"); FAddedCompletedAt (VStr "task_1")]
    ltac:(reflexivity) _ ltac:(left; reflexivity) ltac:(reflexivity)).
Defined.

Lemma check_task_missing_completed_at_witness :
  check_task (mkTicks (sample_now + 5) (sample_now + 6) (sample_now + 7)) (task_with "completed" 100) =
    Done (completed_just_now,
          [IInconsistentCompletion (get_default (task_with "completed" 100) "id" (VStr "unknown"))],
          [FAddedCompletedAt (get_default (task_with "completed" 100) "id" (VStr "unknown"))]).
Proof.
  exact (proj1 (check_task_missing_completed_at (mkTicks (sample_now + 5) (sample_now + 6) (sample_now + 7))
           (task_with "completed" 100) 100
           ltac:(reflexivity) ltac:(reflexivity) ltac:(reflexivity)
           ltac:(reflexivity) ltac:(lia) ltac:(reflexivity) ltac:(reflexivity))
           ltac:(vm_compute; discriminate)).
Defined.

Lemma health_check_zero_estimate_witness :
  run (health_check (ticking_clock sample_now) sample_now
         (sample_store [zero_estimate_task]))
    = ([], Raised ZeroDivisionError).
Proof.
  exact (health_check_zero_estimate (ticking_clock sample_now) sample_now
           (sample_store [zero_estimate_task])
           [] [] (zero_estimate_task)
           ([], [], []) 5 eq_refl eq_refl ltac:(reflexivity) ltac:(reflexivity) ltac:(lia)
           ltac:(simpl; intros H; discriminate H)).
Defined.

Lemma health_check_no_fix_witness :
  run (health_check (ticking_clock sample_now) sample_now (sample_store [task_with "pending" 0])) =
    ([EWal ("WAL-" ++ today sample_now ++ ".log")
        (mkWal (iso sample_now) "HEALTH_CHECK"
           [("issues_found", VInt 0); ("auto_fixes_applied", VInt 0); ("timestamp", VStr (iso sample_now))]);
      EStdout [("success", VBool true); ("health_status", VStr "healthy")]],
     Done ([], [])).
Proof.
  exact (proj1 (health_check_no_fix (ticking_clock sample_now) sample_now (sample_store [task_with "pending" 0]) [task_with "pending" 0] []
                  ltac:(reflexivity))).
Defined.

Lemma check_task_time_anomaly_witness :
  check_task (mkTicks sample_now (sample_now + 1) (sample_now + 2)) (overrun_task) =
    Done (overrun_task,
          [ITimeAnomaly (get_default (<["estimate_minutes" := VInt 1]> (<["actual_minutes" := VInt 30]>
                                        (task_with "pending" 0))) "id" (VStr "unknown"))], []).
Proof.
  exact (check_task_time_anomaly (mkTicks sample_now (sample_now + 1) (sample_now + 2))
           (overrun_task) 30 1
           ltac:(reflexivity) ltac:(reflexivity) ltac:(reflexivity)
           ltac:(reflexivity) ltac:(discriminate) ltac:(lia)).
Defined.

Lemma split_date_stamp_witness :
  count_by_day ∅ [completed_today] =
    Done (<[today sample_now := default 0 ((∅ : gmap string Z) !! today sample_now) + 1]> ∅).
Proof.
  exact (proj2 (split_date_stamp sample_now ∅ (completed_today))
           ltac:(reflexivity)).
Defined.

Lemma buffer_round_trip_witness :
  run (flush_working_buffer sample_now
         (fold_left (fun fs '(t, ev, d) => append_to_buffer_file t ev d fs) [(sample_now, "PROGRESS", "task_1")]
            (mkFiles None ∅))) =
    ([EStdout [("success", VBool true); ("message", VStr ("Buffer flushed to " ++ today sample_now ++ ".md"));
               ("lines_flushed", VInt 2)]],
     Done (mkFiles (Some "")
             (<[today sample_now ++ ".md" :=
                 default "" ((∅ : gmap string string) !! (today sample_now ++ ".md")) ++ newline ++ "## Task Updates"
                 ++ newline ++ String.concat "" (map (fun '(t, ev, d) => buffer_entry t ev d)
                                                   [(sample_now, "PROGRESS", "task_1")]) ++ newline]> ∅))).
Proof.
  exact (buffer_round_trip sample_now [(sample_now, "PROGRESS", "task_1")] (mkFiles None ∅)
           ltac:(right; split; [reflexivity|discriminate])
           ltac:(constructor; [split; reflexivity|constructor])).
Defined.

Lemma flush_edges_witness :
  run (flush_working_buffer sample_now (mkFiles None ∅)) = ([], Done (mkFiles None ∅)).
Proof.
  exact (proj1 (flush_edges sample_now (mkFiles None ∅)) eq_refl).
Defined.

Lemma main2_dispatch_witness :
  main2 (fun _ => Done 0) (ticking_clock sample_now) sample_now (sample_store []) ["task_manager_phase2.py"; "archive"] =
    Done (CliExit true ["Unknown command: " ++ "archive"]).
Proof.
  exact (proj2 (main2_dispatch (fun _ => Done 0) (ticking_clock sample_now) sample_now (sample_store []) ["task_manager_phase2.py"; "archive"])
           "task_manager_phase2.py" "archive" [] eq_refl ltac:(cbn; intuition discriminate)).
Defined.

Lemma main2_defaults_witness :
  main2 (fun _ => Done 5) (ticking_clock sample_now) sample_now (sample_store [])
        ["task_manager_phase2.py"; "mark-progress"; "task_1"; "5"] =
    Done (CliRun (mark_progress2 sample_now (sample_store []) "task_1" 5 "")).
Proof.
  exact (proj1 (proj2 (main2_defaults (fun _ => Done 5) (ticking_clock sample_now) sample_now (sample_store [])
                         "task_manager_phase2.py" "task_1" "5" "" "r" [] 5 ltac:(discriminate) eq_refl))).
Defined.

Lemma main2_parse_before_id_check_witness :
  main2 (fun _ => Raised TypeError) (ticking_clock sample_now) sample_now (sample_store [])
        ["task_manager_phase2.py"; "mark-progress"; ""; "x"]
    = Raised TypeError.
Proof.
  exact (proj1 (main2_parse_before_id_check (fun _ => Raised TypeError) (ticking_clock sample_now) sample_now (sample_store [])
                  "task_manager_phase2.py" "x" "" TypeError eq_refl)).
Defined.
